(** * opcode audio panels: the shared playback context and the generation panels

    A shallow embedding of

      - [src/contexts/AudioContext.tsx]   (AudioProvider, useAudio, useAudioPlayer)
      - [src/components/audio/MusicGenerationPanel.tsx]
      - [src/components/audio/SoundEffectsPanel.tsx]
      - [src/components/audio/VoiceControlPanel.tsx]

    React state is threaded explicitly: a handler is a computation over the
    component's world (its [useState] cells and its [useRef] cell) that either
    completes normally or throws, in the state-and-exception monad [JS.M].
    A callback built by [useCallback] is a function of the render whose state it
    closed over, so the callbacks that read [state.x] take that rendered state
    as their first argument. *)

From Stdlib Require Import Bool Ascii String List ZArith QArith Qminmax Lia Lqa.
From Stdlib Require Import DecimalString.
Import ListNotations.
Open Scope string_scope.

(* ================================================================== *)
(** ** The JavaScript values and built-ins the sources use *)

Module JS.

(** A JavaScript [number].  A finite number is represented by its exact
    rational value (every binary64 value is rational; comparison, [Math.max]
    and [Math.min] are exact on them); signed zeros are identified. *)
Inductive number : Type :=
| NaN
| Inf (negative : bool)
| Fin (q : Q).

Definition zero : number := Fin 0.
Definition one : number := Fin 1.

Definition isNaN (n : number) : bool :=
  match n with NaN => true | _ => false end.

Definition isFinite (n : number) : bool :=
  match n with Fin _ => true | _ => false end.

(** [a <= b]; false as soon as one side is NaN. *)
Definition leb (a b : number) : bool :=
  match a, b with
  | NaN, _ | _, NaN => false
  | Inf true, _ => true
  | _, Inf false => true
  | Inf false, _ => false
  | _, Inf true => false
  | Fin x, Fin y => Qle_bool x y
  end.

(** [Math.max(a, b)] and [Math.min(a, b)]: NaN if either argument is NaN. *)
Definition Math_max (a b : number) : number :=
  if isNaN a || isNaN b then NaN else if leb a b then b else a.

Definition Math_min (a b : number) : number :=
  if isNaN a || isNaN b then NaN else if leb a b then a else b.

(** Truthiness of a number ([n || d] takes [d] when [n] is 0 or NaN). *)
Definition truthy_number (n : number) : bool :=
  match n with
  | NaN => false
  | Inf _ => true
  | Fin q => negb (Qeq_bool q 0)
  end.

Definition or_number (n d : number) : number :=
  if truthy_number n then n else d.

(** The closed interval [[0,1]] of numbers. *)
Definition in_unit_interval (n : number) : Prop :=
  match n with
  | Fin q => (0 <= q <= 1)%Q
  | _ => False
  end.

Definition in_unit_intervalb (n : number) : bool := leb zero n && leb n one.

(** *** Strings

    A string is its sequence of code units, here the units U+0000..U+00FF
    that [ascii] holds. *)

(** WhiteSpace and LineTerminator code units (TAB, LF, VT, FF, CR, SP, NBSP). *)
Definition isWhiteSpace (c : ascii) : bool :=
  let n := N_of_ascii c in
  (N.leb 9 n && N.leb n 13) || N.eqb n 32 || N.eqb n 160.

Fixpoint trimStart (s : string) : string :=
  match s with
  | EmptyString => EmptyString
  | String c s' => if isWhiteSpace c then trimStart s' else s
  end.

Fixpoint trimEnd (s : string) : string :=
  match s with
  | EmptyString => EmptyString
  | String c s' =>
      let r := trimEnd s' in
      if isWhiteSpace c && String.eqb r EmptyString then EmptyString
      else String c r
  end.

(** [String.prototype.trim]. *)
Definition trim (s : string) : string := trimEnd (trimStart s).

(** Truthiness of a string: every string but the empty one. *)
Definition truthy_string (s : string) : bool := negb (String.eqb s EmptyString).

(** Truthiness of [string | undefined]. *)
Definition truthy_opt (o : option string) : bool :=
  match o with
  | Some s => truthy_string s
  | None => false
  end.

(** [a === b] on [string | null] operands. *)
Definition strict_eq (a b : option string) : bool :=
  match a, b with
  | Some x, Some y => String.eqb x y
  | None, None => true
  | _, _ => false
  end.

(** A prompt "consisting only of whitespace" (the empty string included). *)
Fixpoint whitespace_only (s : string) : bool :=
  match s with
  | EmptyString => true
  | String c s' => isWhiteSpace c && whitespace_only s'
  end.

(** Number-to-string of an integer, as a template literal does it. *)
Definition string_of_Z (z : Z) : string := NilZero.string_of_int (Z.to_int z).

(** *** parseFloat

    The longest prefix of the left-trimmed input that is a StrDecimalLiteral,
    read as its mathematical value (the final rounding to binary64, which is
    monotone and fixes 0 and 1, is not modelled); NaN when there is none. *)

Definition digit (c : ascii) : option N :=
  let n := N_of_ascii c in
  if N.leb 48 n && N.leb n 57 then Some (n - 48)%N else None.

(** Reads decimal digits: the accumulated value, how many were read, the rest. *)
Fixpoint digits (s : string) (acc : N) (count : nat) : N * nat * string :=
  match s with
  | EmptyString => (acc, count, s)
  | String c s' =>
      match digit c with
      | Some d => digits s' (acc * 10 + d)%N (S count)
      | None => (acc, count, s)
      end
  end.

(** ExponentPart, 0 when absent or malformed. *)
Definition exponentPart (s : string) : Z :=
  match s with
  | String c s' =>
      if Ascii.eqb c "e" || Ascii.eqb c "E" then
        let '(neg, s'') :=
          match s' with
          | String "-" r => (true, r)
          | String "+" r => (false, r)
          | _ => (false, s')
          end in
        let '(e, n, _) := digits s'' 0%N 0%nat in
        match n with
        | O => 0%Z
        | S _ => if neg then (- Z.of_N e)%Z else Z.of_N e
        end
      else 0%Z
  | EmptyString => 0%Z
  end.

(** [m * 10^k] as a rational. *)
Definition scale10 (m : N) (k : Z) : Q :=
  if (0 <=? k)%Z then inject_Z (Z.of_N m * 10 ^ k)
  else Qmake (Z.of_N m) (Z.to_pos (10 ^ (- k))).

Definition strUnsignedDecimalLiteral (s : string) : option number :=
  if String.prefix "Infinity" s then Some (Inf false)
  else
    let '(i, ni, r) := digits s 0%N 0%nat in
    let '(m, nf, r') :=
      match r with
      | String "." r1 => digits r1 i 0%nat
      | _ => (i, 0%nat, r)
      end in
    match (ni + nf)%nat with
    | O => None
    | S _ => Some (Fin (scale10 m (exponentPart r' - Z.of_nat nf)))
    end.

Definition negate (n : number) : number :=
  match n with
  | NaN => NaN
  | Inf b => Inf (negb b)
  | Fin q => Fin (- q)
  end.

Definition parseFloat (s : string) : number :=
  let t := trimStart s in
  let '(neg, u) :=
    match t with
    | String "-" r => (true, r)
    | String "+" r => (false, r)
    | _ => (false, t)
    end in
  match strUnsignedDecimalLiteral u with
  | None => NaN
  | Some n => if neg then negate n else n
  end.

(** *** Completions and the handler monad *)

Inductive Exception : Type :=
| TypeError (message : string)
| DOMException (name : string)
| Error (message : string).

Inductive Completion (A : Type) : Type :=
| Normal (value : A)
| Throw (e : Exception).
Arguments Normal {A} value.
Arguments Throw {A} e.

Definition throws {A} (c : Completion A) : bool :=
  match c with Normal _ => false | Throw _ => true end.

(** A computation over a world [W]: its completion and the world it leaves.
    What was written before a throw stays written. *)
Definition M (W A : Type) : Type := W -> Completion A * W.

Definition ret {W A} (a : A) : M W A := fun w => (Normal a, w).

Definition bind {W A B} (c : M W A) (k : A -> M W B) : M W B :=
  fun w =>
    match c w with
    | (Normal a, w') => k a w'
    | (Throw e, w') => (Throw e, w')
    end.

Definition throw {W A} (e : Exception) : M W A := fun w => (Throw e, w).
Definition get {W} : M W W := fun w => (Normal w, w).
Definition modify {W} (f : W -> W) : M W unit := fun w => (Normal tt, f w).

(** [try { body } finally { fin }] *)
Definition try_finally {W A} (body : M W A) (fin : M W unit) : M W A :=
  fun w =>
    match body w with
    | (c, w') =>
        match fin w' with
        | (Normal _, w'') => (c, w'')
        | (Throw e, w'') => (Throw e, w'')
        end
    end.

(** [try { body } catch (err) { handler }] *)
Definition try_catch {W A} (body : M W A) (handler : Exception -> M W A) : M W A :=
  fun w =>
    match body w with
    | (Normal a, w') => (Normal a, w')
    | (Throw e, w') => handler e w'
    end.

(** The world a computation leaves, and its completion. *)
Definition exec {W A} (c : M W A) (w : W) : W := snd (c w).
Definition completion {W A} (c : M W A) (w : W) : Completion A := fst (c w).

(** A settled promise of [play()]. *)
Inductive Promise : Type :=
| Fulfilled
| Rejected (reason : string).

(** [promise.catch(onRejected)]: the reaction runs only on rejection. *)
Definition catch {W} (p : Promise) (onRejected : string -> M W unit) : M W unit :=
  match p with
  | Fulfilled => ret tt
  | Rejected reason => onRejected reason
  end.

End JS.

Declare Scope js_scope.
Delimit Scope js_scope with js.
Notation "x <- c ;; k" := (JS.bind c (fun x => k))
  (at level 61, c at next level, right associativity) : js_scope.
Notation "c ;;; k" := (JS.bind c (fun _ => k))
  (at level 61, right associativity) : js_scope.

Import JS.
Local Open Scope js_scope.

(* ================================================================== *)
(** ** The media element

    The fields are those the sources read and write (the same the test double
    [MockAudio] of [AudioContext.test.tsx] declares); [calls] records the
    method calls, as the test double's spies do.  Setters and methods follow
    the HTML standard at that granularity. *)

Module Media.

Inductive Call : Type := Load | Play | Pause.

Record HTMLAudioElement : Type := mkAudio {
  src : string;
  volume : number;
  currentTime : number;
  duration : number;
  paused : bool;
  calls : list Call
}.

(** [new Audio()] *)
Definition newAudio : HTMLAudioElement :=
  {| src := ""; volume := one; currentTime := zero; duration := NaN;
     paused := true; calls := [] |}.

(** [audio.volume = v]: a non-finite value is a TypeError, a value outside
    [[0,1]] an IndexSizeError; nothing is written then. *)
Definition set_volume (v : number) : M HTMLAudioElement unit :=
  fun a =>
    if negb (isFinite v) then
      (Throw (TypeError "The provided double value is non-finite."), a)
    else if negb (in_unit_intervalb v) then
      (Throw (DOMException "IndexSizeError"), a)
    else
      (Normal tt,
       {| src := src a; volume := v; currentTime := currentTime a;
          duration := duration a; paused := paused a; calls := calls a |}).

(** [audio.currentTime = t]: a non-finite value is a TypeError. *)
Definition set_currentTime (t : number) : M HTMLAudioElement unit :=
  fun a =>
    if negb (isFinite t) then
      (Throw (TypeError "The provided double value is non-finite."), a)
    else
      (Normal tt,
       {| src := src a; volume := volume a; currentTime := t;
          duration := duration a; paused := paused a; calls := calls a |}).

(** The media element load algorithm: playback of the previous resource is
    aborted, the element is paused and its position goes back to 0. *)
Definition load_algorithm (a : HTMLAudioElement) : HTMLAudioElement :=
  {| src := src a; volume := volume a; currentTime := zero;
     duration := NaN; paused := true; calls := calls a |}.

Definition record_call (c : Call) (a : HTMLAudioElement) : HTMLAudioElement :=
  {| src := src a; volume := volume a; currentTime := currentTime a;
     duration := duration a; paused := paused a; calls := calls a ++ [c] |}.

(** [audio.src = url] *)
Definition set_src (url : string) : M HTMLAudioElement unit :=
  fun a =>
    (Normal tt,
     load_algorithm
       {| src := url; volume := volume a; currentTime := currentTime a;
          duration := duration a; paused := paused a; calls := calls a |}).

(** [audio.load()] *)
Definition load : M HTMLAudioElement unit :=
  fun a => (Normal tt, record_call Load (load_algorithm a)).

(** [audio.play()]: the promise it returns is the environment's choice
    [outcome]; a play that is refused leaves [paused] as it was. *)
Definition play (outcome : Promise) : M HTMLAudioElement Promise :=
  fun a =>
    let a' := record_call Play a in
    (Normal outcome,
     match outcome with
     | Fulfilled =>
         {| src := src a'; volume := volume a'; currentTime := currentTime a';
            duration := duration a'; paused := false; calls := calls a' |}
     | Rejected _ => a'
     end).

(** [audio.pause()] *)
Definition pause : M HTMLAudioElement unit :=
  fun a =>
    let a' := record_call Pause a in
    (Normal tt,
     {| src := src a'; volume := volume a'; currentTime := currentTime a';
        duration := duration a'; paused := true; calls := calls a' |}).

(** What the browser does to the element before it fires [timeupdate] and
    [durationchange]: playback has moved on, the duration is known. *)
Definition progress (t : number) (a : HTMLAudioElement) : HTMLAudioElement :=
  {| src := src a; volume := volume a; currentTime := t;
     duration := duration a; paused := paused a; calls := calls a |}.

Definition known_duration (d : number) (a : HTMLAudioElement) : HTMLAudioElement :=
  {| src := src a; volume := volume a; currentTime := currentTime a;
     duration := d; paused := paused a; calls := calls a |}.

End Media.

(* ================================================================== *)
(** ** A component's world

    What a component instance owns: the element behind its [audioRef], its
    [useState] cells (gathered in one record [S]) and the console. *)

Module React.

Record World (S : Type) : Type := mkWorld {
  audioRef : option Media.HTMLAudioElement;
  state : S;
  console : list (string * string)
}.
Arguments mkWorld {S} audioRef state console.
Arguments audioRef {S} w.
Arguments state {S} w.
Arguments console {S} w.

Section Cells.
Context {S : Type}.

(** A state setter called with an updater function. *)
Definition setState (f : S -> S) : M (World S) unit :=
  modify (fun w =>
    {| audioRef := audioRef w; state := f (state w); console := console w |}).

(** [audioRef.current] *)
Definition readRef : M (World S) (option Media.HTMLAudioElement) :=
  fun w => (Normal (audioRef w), w).

(** [audioRef.current = a] *)
Definition writeRef (a : Media.HTMLAudioElement) : M (World S) unit :=
  modify (fun w =>
    {| audioRef := Some a; state := state w; console := console w |}).

(** A member access on [audioRef.current]; on [null] it is a TypeError. *)
Definition onAudio {A} (c : M Media.HTMLAudioElement A) : M (World S) A :=
  fun w =>
    match audioRef w with
    | None => (Throw (TypeError "Cannot read properties of null"), w)
    | Some a =>
        match c a with
        | (r, a') =>
            (r, {| audioRef := Some a'; state := state w; console := console w |})
        end
    end.

(** [audioRef.current?.m()]: nothing happens on [null]. *)
Definition onAudioOpt (c : M Media.HTMLAudioElement unit) : M (World S) unit :=
  fun w =>
    match audioRef w with
    | None => (Normal tt, w)
    | Some _ => onAudio c w
    end.

(** [console.error(message, detail)] *)
Definition console_error (message detail : string) : M (World S) unit :=
  modify (fun w =>
    {| audioRef := audioRef w; state := state w;
       console := console w ++ [(message, detail)] |}).
End Cells.

(** How a thrown value prints when it is logged. *)
Definition describe (e : Exception) : string :=
  match e with
  | TypeError m => "TypeError: " ++ m
  | DOMException n => n
  | Error m => "Error: " ++ m
  end.

End React.

(* ================================================================== *)
(** ** src/contexts/AudioContext.tsx *)

Module AudioContext.
Import React.

Record AudioState : Type := mkState {
  currentlyPlayingId : option string;
  currentlyPlayingUrl : option string;
  isPlaying : bool;
  currentTime : number;
  duration : number;
  volume : number
}.

(** The provider's world. *)
Definition Provider : Type := React.World AudioState.

(** The argument of [useState]. *)
Definition initialState : AudioState :=
  {| currentlyPlayingId := None; currentlyPlayingUrl := None;
     isPlaying := false; currentTime := zero; duration := zero;
     volume := Fin 0.7 |}.

(** The provider at its first render, before its effect has run. *)
Definition initialProvider : Provider :=
  {| audioRef := None; state := initialState; console := [] |}.

(** *** The listeners of the provider's effect *)

Definition handleTimeUpdate : M Provider unit :=
  t <- onAudio (fun a => (Normal (Media.currentTime a), a)) ;;
  setState (fun prev =>
    {| currentlyPlayingId := currentlyPlayingId prev;
       currentlyPlayingUrl := currentlyPlayingUrl prev;
       isPlaying := isPlaying prev;
       currentTime := t;
       duration := duration prev;
       volume := volume prev |}).

Definition handleDurationChange : M Provider unit :=
  d <- onAudio (fun a => (Normal (Media.duration a), a)) ;;
  setState (fun prev =>
    {| currentlyPlayingId := currentlyPlayingId prev;
       currentlyPlayingUrl := currentlyPlayingUrl prev;
       isPlaying := isPlaying prev;
       currentTime := currentTime prev;
       duration := or_number d zero;
       volume := volume prev |}).

Definition handleEnded : M Provider unit :=
  setState (fun prev =>
    {| currentlyPlayingId := None;
       currentlyPlayingUrl := None;
       isPlaying := false;
       currentTime := zero;
       duration := duration prev;
       volume := volume prev |}).

Definition handlePlay : M Provider unit :=
  setState (fun prev =>
    {| currentlyPlayingId := currentlyPlayingId prev;
       currentlyPlayingUrl := currentlyPlayingUrl prev;
       isPlaying := true;
       currentTime := currentTime prev;
       duration := duration prev;
       volume := volume prev |}).

Definition handlePause : M Provider unit :=
  setState (fun prev =>
    {| currentlyPlayingId := currentlyPlayingId prev;
       currentlyPlayingUrl := currentlyPlayingUrl prev;
       isPlaying := false;
       currentTime := currentTime prev;
       duration := duration prev;
       volume := volume prev |}).

(** The body of the effect ("Initialize audio element"); [rendered] is the
    state of the render that created it.  The five listeners above are
    attached to the element it leaves in [audioRef]. *)
Definition initializeAudio (rendered : AudioState) : M Provider unit :=
  audio <- readRef ;;
  match audio with
  | None =>
      writeRef Media.newAudio ;;;
      onAudio (Media.set_volume (volume rendered))
  | Some _ => ret tt
  end.

(** *** The callbacks of the context value

    Each returns at once when [audioRef.current] is still [null].  The
    reaction of [play().catch(...)] is run in place: it only writes to the
    console, which the rest of [playAudio] does not touch. *)

Definition playAudio (rendered : AudioState) (id url : string)
    (outcome : Promise) : M Provider unit :=
  audio <- readRef ;;
  match audio with
  | None => ret tt
  | Some _ =>
      (* If different audio, load new source *)
      (if negb (strict_eq (currentlyPlayingUrl rendered) (Some url)) then
         onAudio (Media.set_src url) ;;;
         onAudio Media.load
       else ret tt) ;;;
      promise <- onAudio (Media.play outcome) ;;
      catch promise (fun err => console_error "Failed to play audio:" err) ;;;
      setState (fun prev =>
        {| currentlyPlayingId := Some id;
           currentlyPlayingUrl := Some url;
           isPlaying := true;
           currentTime := currentTime prev;
           duration := duration prev;
           volume := volume prev |})
  end.

Definition pauseAudio : M Provider unit :=
  audio <- readRef ;;
  match audio with
  | None => ret tt
  | Some _ =>
      onAudio Media.pause ;;;
      setState (fun prev =>
        {| currentlyPlayingId := currentlyPlayingId prev;
           currentlyPlayingUrl := currentlyPlayingUrl prev;
           isPlaying := false;
           currentTime := currentTime prev;
           duration := duration prev;
           volume := volume prev |})
  end.

Definition stopAudio : M Provider unit :=
  audio <- readRef ;;
  match audio with
  | None => ret tt
  | Some _ =>
      onAudio Media.pause ;;;
      onAudio (Media.set_currentTime zero) ;;;
      setState (fun prev =>
        {| currentlyPlayingId := None;
           currentlyPlayingUrl := None;
           isPlaying := false;
           currentTime := zero;
           duration := duration prev;
           volume := volume prev |})
  end.

Definition togglePlayPause (rendered : AudioState) (id url : string)
    (outcome : Promise) : M Provider unit :=
  if strict_eq (currentlyPlayingId rendered) (Some id) && isPlaying rendered
  then pauseAudio
  else playAudio rendered id url outcome.

Definition seekTo (time : number) : M Provider unit :=
  audio <- readRef ;;
  match audio with
  | None => ret tt
  | Some _ =>
      onAudio (Media.set_currentTime time) ;;;
      setState (fun prev =>
        {| currentlyPlayingId := currentlyPlayingId prev;
           currentlyPlayingUrl := currentlyPlayingUrl prev;
           isPlaying := isPlaying prev;
           currentTime := time;
           duration := duration prev;
           volume := volume prev |})
  end.

Definition clamp (v : number) : number := Math_max zero (Math_min one v).

Definition setVolume (v : number) : M Provider unit :=
  audio <- readRef ;;
  match audio with
  | None => ret tt
  | Some _ =>
      let clampedVolume := clamp v in
      onAudio (Media.set_volume clampedVolume) ;;;
      setState (fun prev =>
        {| currentlyPlayingId := currentlyPlayingId prev;
           currentlyPlayingUrl := currentlyPlayingUrl prev;
           isPlaying := isPlaying prev;
           currentTime := currentTime prev;
           duration := duration prev;
           volume := clampedVolume |})
  end.

Definition isCurrentlyPlaying (rendered : AudioState) (id : string) : bool :=
  strict_eq (currentlyPlayingId rendered) (Some id) && isPlaying rendered.

(** *** The context value, [useAudio] and [useAudioPlayer] *)

(** [AudioContextValue]: the state of the render, spread, and the callbacks
    that render built. *)
Record AudioContextValue : Type := mkValue {
  cv_state : AudioState;
  cv_playAudio : string -> string -> Promise -> M Provider unit;
  cv_pauseAudio : M Provider unit;
  cv_stopAudio : M Provider unit;
  cv_togglePlayPause : string -> string -> Promise -> M Provider unit;
  cv_seekTo : number -> M Provider unit;
  cv_setVolume : number -> M Provider unit;
  cv_isCurrentlyPlaying : string -> bool
}.

(** The [value] a render of the provider hands to [AudioContext.Provider]. *)
Definition value (rendered : AudioState) : AudioContextValue :=
  {| cv_state := rendered;
     cv_playAudio := playAudio rendered;
     cv_pauseAudio := pauseAudio;
     cv_stopAudio := stopAudio;
     cv_togglePlayPause := togglePlayPause rendered;
     cv_seekTo := seekTo;
     cv_setVolume := setVolume;
     cv_isCurrentlyPlaying := isCurrentlyPlaying rendered |}.

(** [useAudio()]: [context] is what [useContext(AudioContext)] returns, [null]
    outside a provider. *)
Definition useAudio (context : option AudioContextValue)
  : Completion AudioContextValue :=
  match context with
  | None => Throw (Error "useAudio must be used within an AudioProvider")
  | Some c => Normal c
  end.

Record AudioPlayer : Type := mkPlayer {
  ap_play : Promise -> M Provider unit;
  ap_pause : M Provider unit;
  ap_toggle : Promise -> M Provider unit;
  ap_isPlaying : bool;
  ap_isActive : bool;
  ap_currentTime : number;
  ap_duration : number;
  ap_seekTo : number -> M Provider unit
}.

Definition useAudioPlayer (context : option AudioContextValue)
    (id : string) (url : option string) : Completion AudioPlayer :=
  match useAudio context with
  | Throw e => Throw e
  | Normal audio =>
      let play := fun outcome =>
        match url with
        | Some u => if truthy_string u then cv_playAudio audio id u outcome else ret tt
        | None => ret tt
        end in
      let pause := cv_pauseAudio audio in
      let toggle := fun outcome =>
        match url with
        | Some u =>
            if truthy_string u then cv_togglePlayPause audio id u outcome else ret tt
        | None => ret tt
        end in
      let isPlaying := cv_isCurrentlyPlaying audio id in
      let isActive := strict_eq (currentlyPlayingId (cv_state audio)) (Some id) in
      Normal
        {| ap_play := play;
           ap_pause := pause;
           ap_toggle := toggle;
           ap_isPlaying := isPlaying;
           ap_isActive := isActive;
           ap_currentTime := if isActive then currentTime (cv_state audio) else zero;
           ap_duration := if isActive then duration (cv_state audio) else zero;
           ap_seekTo := cv_seekTo audio |}
  end.

(** *** Runs of the provider

    One step is the provider's effect, a call of one of the six operations
    through the context value of the latest render, or an event of the media
    element reaching its listener. *)

Inductive MediaEvent : Type :=
| timeupdate (t : number)
| durationchange (d : number)
| ended
| play
| pause.

Definition dispatch (e : MediaEvent) : M Provider unit :=
  audio <- readRef ;;
  match audio with
  | None => ret tt
  | Some _ =>
      match e with
      | timeupdate t =>
          onAudio (modify (Media.progress t)) ;;; handleTimeUpdate
      | durationchange d =>
          onAudio (modify (Media.known_duration d)) ;;; handleDurationChange
      | ended => handleEnded
      | play => handlePlay
      | pause => handlePause
      end
  end.

Inductive Action : Type :=
| Mount
| PlayAudio (id url : string) (outcome : Promise)
| PauseAudio
| StopAudio
| TogglePlayPause (id url : string) (outcome : Promise)
| SeekTo (time : number)
| SetVolume (v : number)
| Event (e : MediaEvent).

(** The callbacks are those of the latest render: they see [state p]. *)
Definition run (a : Action) : M Provider unit :=
  fun p =>
    let ctx := value (state p) in
    match a with
    | Mount => initializeAudio (state p) p
    | PlayAudio id url outcome => cv_playAudio ctx id url outcome p
    | PauseAudio => cv_pauseAudio ctx p
    | StopAudio => cv_stopAudio ctx p
    | TogglePlayPause id url outcome => cv_togglePlayPause ctx id url outcome p
    | SeekTo time => cv_seekTo ctx time p
    | SetVolume v => cv_setVolume ctx v p
    | Event e => dispatch e p
    end.

Inductive reachable : Provider -> Prop :=
| reachable_initial : reachable initialProvider
| reachable_step (a : Action) (p : Provider) :
    reachable p -> reachable (exec (run a) p).

(** The provider once its effect has run. *)
Definition mounted : Provider := exec (run Mount) initialProvider.

(** The element [playAudio] makes of the element [a]: reloaded when the url
    differs from the rendered one, then played. *)
Definition played (rendered : AudioState) (url : string) (outcome : Promise)
    (a : Media.HTMLAudioElement) : Media.HTMLAudioElement :=
  exec (Media.play outcome)
    (if negb (strict_eq (currentlyPlayingUrl rendered) (Some url))
     then exec Media.load (exec (Media.set_src url) a)
     else a).

(** The state's volume is in [[0,1]] and is the element's volume. *)
Definition volume_in_step (p : Provider) : Prop :=
  in_unit_interval (volume (state p)) /\
  forall a, audioRef p = Some a -> Media.volume a = volume (state p).

End AudioContext.

(* ================================================================== *)
(** ** src/components/audio/MusicGenerationPanel.tsx (first component) *)

Module MusicGenerationPanel.
Import React.

Module GeneratedTrack.
Record t : Type := mk {
  id : string;
  prompt : string;
  style : string;
  mood : string;
  duration : number;
  audioUrl : option string;
  createdAt : string
}.
End GeneratedTrack.

(** The [useState] cells of the component. *)
Record State : Type := mkState {
  prompt : string;
  selectedStyle : string;
  selectedMood : string;
  duration : number;
  isGenerating : bool;
  error : option string;
  tracks : list GeneratedTrack.t;
  currentTrack : option GeneratedTrack.t;
  isPlaying : bool;
  currentTime : number;
  volume : number
}.

Definition Panel : Type := World State.

Definition initialState : State :=
  {| prompt := ""; selectedStyle := "cinematic"; selectedMood := "tense";
     duration := Fin 30; isGenerating := false; error := None; tracks := [];
     currentTrack := None; isPlaying := false; currentTime := zero;
     volume := Fin 0.7 |}.

Definition setPrompt (v : string) : M Panel unit :=
  setState (fun s =>
    mkState v (selectedStyle s) (selectedMood s) (duration s) (isGenerating s)
      (error s) (tracks s) (currentTrack s) (isPlaying s) (currentTime s) (volume s)).

Definition setIsGenerating (v : bool) : M Panel unit :=
  setState (fun s =>
    mkState (prompt s) (selectedStyle s) (selectedMood s) (duration s) v
      (error s) (tracks s) (currentTrack s) (isPlaying s) (currentTime s) (volume s)).

Definition setError (v : option string) : M Panel unit :=
  setState (fun s =>
    mkState (prompt s) (selectedStyle s) (selectedMood s) (duration s) (isGenerating s)
      v (tracks s) (currentTrack s) (isPlaying s) (currentTime s) (volume s)).

Definition setTracks (f : list GeneratedTrack.t -> list GeneratedTrack.t) : M Panel unit :=
  setState (fun s =>
    mkState (prompt s) (selectedStyle s) (selectedMood s) (duration s) (isGenerating s)
      (error s) (f (tracks s)) (currentTrack s) (isPlaying s) (currentTime s) (volume s)).

Definition setCurrentTrack (v : option GeneratedTrack.t) : M Panel unit :=
  setState (fun s =>
    mkState (prompt s) (selectedStyle s) (selectedMood s) (duration s) (isGenerating s)
      (error s) (tracks s) v (isPlaying s) (currentTime s) (volume s)).

Definition setIsPlaying (v : bool) : M Panel unit :=
  setState (fun s =>
    mkState (prompt s) (selectedStyle s) (selectedMood s) (duration s) (isGenerating s)
      (error s) (tracks s) (currentTrack s) v (currentTime s) (volume s)).

Definition setCurrentTime (v : number) : M Panel unit :=
  setState (fun s =>
    mkState (prompt s) (selectedStyle s) (selectedMood s) (duration s) (isGenerating s)
      (error s) (tracks s) (currentTrack s) (isPlaying s) v (volume s)).

Definition setVolume (v : number) : M Panel unit :=
  setState (fun s =>
    mkState (prompt s) (selectedStyle s) (selectedMood s) (duration s) (isGenerating s)
      (error s) (tracks s) (currentTrack s) (isPlaying s) (currentTime s) v).

(** [handleGenerate]; [now] is [Date.now()] and [iso] is
    [new Date().toISOString()]. *)
Definition handleGenerate (rendered : State) (now : Z) (iso : string)
  : M Panel unit :=
  if negb (truthy_string (trim (prompt rendered))) then ret tt
  else
    setIsGenerating true ;;;
    setError None ;;;
    try_finally
      (try_catch
         (let newTrack :=
            {| GeneratedTrack.id := "track-" ++ string_of_Z now;
               GeneratedTrack.prompt := prompt rendered;
               GeneratedTrack.style := selectedStyle rendered;
               GeneratedTrack.mood := selectedMood rendered;
               GeneratedTrack.duration := duration rendered;
               GeneratedTrack.audioUrl := None;
               GeneratedTrack.createdAt := iso |} in
          setTracks (fun prev => newTrack :: prev) ;;;
          setPrompt "")
         (fun err =>
            console_error "Failed to generate music:" (describe err) ;;;
            setError (Some "Failed to generate music")))
      (setIsGenerating false).

(** [currentTrack?.id === track.id] *)
Definition isCurrent (rendered : State) (track : GeneratedTrack.t) : bool :=
  strict_eq (option_map GeneratedTrack.id (currentTrack rendered))
            (Some (GeneratedTrack.id track)).

Definition handlePlayTrack (rendered : State) (track : GeneratedTrack.t)
    (outcome : Promise) : M Panel unit :=
  if isCurrent rendered track && isPlaying rendered then
    onAudioOpt Media.pause ;;;
    setIsPlaying false
  else
    audio <- readRef ;;
    match GeneratedTrack.audioUrl track, audio with
    | Some url, Some _ =>
        if truthy_string url then
          (if negb (isCurrent rendered track) then
             onAudio (Media.set_src url) ;;;
             setCurrentTime zero
           else ret tt) ;;;
          setCurrentTrack (Some track) ;;;
          _ <- onAudio (Media.play outcome) ;;
          setIsPlaying true
        else ret tt
    | _, _ => ret tt
    end.

(** [handleVolumeChange]; [value] is [e.target.value]. *)
Definition handleVolumeChange (value : string) : M Panel unit :=
  let vol := parseFloat value in
  setVolume vol ;;;
  audio <- readRef ;;
  match audio with
  | Some _ => onAudio (Media.set_volume vol)
  | None => ret tt
  end.

(** The [disabled] attribute of the "Generate Music" button. *)
Definition generateDisabled (rendered : State) : bool :=
  isGenerating rendered || negb (truthy_string (trim (prompt rendered))).

(** The panel once React has bound the [<audio>] element to [audioRef]. *)
Definition mounted : Panel :=
  {| audioRef := Some Media.newAudio; state := initialState; console := [] |}.

(** [handleSeek]; [value] is [e.target.value]. *)
Definition handleSeek (value : string) : M Panel unit :=
  let time := parseFloat value in
  audio <- readRef ;;
  match audio with
  | Some _ =>
      onAudio (Media.set_currentTime time) ;;;
      setCurrentTime time
  | None => ret tt
  end.


(** [t.id !== trackId], the predicate [handleDeleteTrack] filters with. *)
Definition otherThan (trackId : string) (t : GeneratedTrack.t) : bool :=
  negb (String.eqb (GeneratedTrack.id t) trackId).


(** The listeners of the panel's effect ("Update current time during
    playback"). *)
Definition handleTimeUpdate : M Panel unit :=
  t <- onAudio (fun a => (Normal (Media.currentTime a), a)) ;;
  setCurrentTime t.

Definition handleEnded : M Panel unit :=
  setIsPlaying false ;;;
  setCurrentTime zero.

End MusicGenerationPanel.

(* ================================================================== *)
(** ** src/components/audio/MusicGenerationPanel.tsx (second component:
       SoundEffectsPanel) *)

Module SoundEffectsPanel.
Import React.

Module GeneratedSound.
Record t : Type := mk {
  id : string;
  prompt : string;
  category : string;
  duration : number;
  audioUrl : option string;
  createdAt : string
}.
End GeneratedSound.

Record State : Type := mkState {
  prompt : string;
  category : string;
  duration : number;
  isGenerating : bool;
  error : option string;
  sounds : list GeneratedSound.t;
  playingSoundId : option string
}.

Definition Panel : Type := World State.

Definition initialState : State :=
  {| prompt := ""; category := "nature"; duration := Fin 3;
     isGenerating := false; error := None; sounds := [];
     playingSoundId := None |}.

Definition setPrompt (v : string) : M Panel unit :=
  setState (fun s =>
    mkState v (category s) (duration s) (isGenerating s) (error s) (sounds s)
      (playingSoundId s)).

Definition setIsGenerating (v : bool) : M Panel unit :=
  setState (fun s =>
    mkState (prompt s) (category s) (duration s) v (error s) (sounds s)
      (playingSoundId s)).

Definition setError (v : option string) : M Panel unit :=
  setState (fun s =>
    mkState (prompt s) (category s) (duration s) (isGenerating s) v (sounds s)
      (playingSoundId s)).

Definition setSounds (f : list GeneratedSound.t -> list GeneratedSound.t) : M Panel unit :=
  setState (fun s =>
    mkState (prompt s) (category s) (duration s) (isGenerating s) (error s)
      (f (sounds s)) (playingSoundId s)).

Definition setPlayingSoundId (v : option string) : M Panel unit :=
  setState (fun s =>
    mkState (prompt s) (category s) (duration s) (isGenerating s) (error s)
      (sounds s) v).

Definition handleGenerate (rendered : State) (now : Z) (iso : string)
  : M Panel unit :=
  if negb (truthy_string (trim (prompt rendered))) then ret tt
  else
    setIsGenerating true ;;;
    setError None ;;;
    try_finally
      (try_catch
         (let newSound :=
            {| GeneratedSound.id := "sfx-" ++ string_of_Z now;
               GeneratedSound.prompt := prompt rendered;
               GeneratedSound.category := category rendered;
               GeneratedSound.duration := duration rendered;
               GeneratedSound.audioUrl := None;
               GeneratedSound.createdAt := iso |} in
          setSounds (fun prev => newSound :: prev) ;;;
          setPrompt "")
         (fun err =>
            console_error "Failed to generate sound effect:" (describe err) ;;;
            setError (Some "Failed to generate sound effect")))
      (setIsGenerating false).

Definition handlePlaySound (rendered : State) (sound : GeneratedSound.t)
    (outcome : Promise) : M Panel unit :=
  if strict_eq (playingSoundId rendered) (Some (GeneratedSound.id sound)) then
    onAudioOpt Media.pause ;;;
    setPlayingSoundId None
  else
    audio <- readRef ;;
    match GeneratedSound.audioUrl sound, audio with
    | Some url, Some _ =>
        if truthy_string url then
          onAudio (Media.set_src url) ;;;
          _ <- onAudio (Media.play outcome) ;;
          setPlayingSoundId (Some (GeneratedSound.id sound))
        else ret tt
    | _, _ => ret tt
    end.

(** The [disabled] attribute of the "Generate Sound" button. *)
Definition generateDisabled (rendered : State) : bool :=
  isGenerating rendered || negb (truthy_string (trim (prompt rendered))).

Definition mounted : Panel :=
  {| audioRef := Some Media.newAudio; state := initialState; console := [] |}.

(** [s.id !== soundId], the predicate [handleDeleteSound] filters with. *)
Definition otherThan (soundId : string) (s : GeneratedSound.t) : bool :=
  negb (String.eqb (GeneratedSound.id s) soundId).


(** The [onEnded] attribute of the hidden [<audio>] element. *)
Definition onEnded : M Panel unit := setPlayingSoundId None.

(** The [onKeyDown] attribute of the prompt input; [key] is [e.key]. *)
Definition onKeyDown (rendered : State) (key : string) (now : Z) (iso : string)
  : M Panel unit :=
  if String.eqb key "Enter" && negb (isGenerating rendered)
  then handleGenerate rendered now iso
  else ret tt.

End SoundEffectsPanel.

(* ================================================================== *)
(** ** VoiceControlPanel (src/unnamed/part_000) *)

Module VoiceControlPanel.
Import React.

Inductive Category : Type := cloned | premade | generated.

Record Settings : Type := mkSettings {
  stability : number;
  similarityBoost : number;
  style : number;
  useSpeakerBoost : bool
}.

Module VoiceProfile.
Record t : Type := mk {
  id : string;
  name : string;
  characterName : option string;
  description : option string;
  previewUrl : option string;
  category : Category;
  settings : Settings
}.
End VoiceProfile.

Record State : Type := mkState {
  voices : list VoiceProfile.t;
  isLoading : bool;
  error : option string;
  showCloneDialog : bool;
  playingVoiceId : option string;
  cloneName : string;
  cloneCharacter : string;
  isCloning : bool
}.

Definition Panel : Type := World State.

Definition initialState : State :=
  {| voices := []; isLoading := false; error := None; showCloneDialog := false;
     playingVoiceId := None; cloneName := ""; cloneCharacter := "";
     isCloning := false |}.

Definition setVoices (f : list VoiceProfile.t -> list VoiceProfile.t) : M Panel unit :=
  setState (fun s =>
    mkState (f (voices s)) (isLoading s) (error s) (showCloneDialog s)
      (playingVoiceId s) (cloneName s) (cloneCharacter s) (isCloning s)).

Definition setIsLoading (v : bool) : M Panel unit :=
  setState (fun s =>
    mkState (voices s) v (error s) (showCloneDialog s)
      (playingVoiceId s) (cloneName s) (cloneCharacter s) (isCloning s)).

Definition setError (v : option string) : M Panel unit :=
  setState (fun s =>
    mkState (voices s) (isLoading s) v (showCloneDialog s)
      (playingVoiceId s) (cloneName s) (cloneCharacter s) (isCloning s)).

Definition setShowCloneDialog (v : bool) : M Panel unit :=
  setState (fun s =>
    mkState (voices s) (isLoading s) (error s) v
      (playingVoiceId s) (cloneName s) (cloneCharacter s) (isCloning s)).

Definition setCloneName (v : string) : M Panel unit :=
  setState (fun s =>
    mkState (voices s) (isLoading s) (error s) (showCloneDialog s)
      (playingVoiceId s) v (cloneCharacter s) (isCloning s)).

Definition setCloneCharacter (v : string) : M Panel unit :=
  setState (fun s =>
    mkState (voices s) (isLoading s) (error s) (showCloneDialog s)
      (playingVoiceId s) (cloneName s) v (isCloning s)).

Definition setIsCloning (v : bool) : M Panel unit :=
  setState (fun s =>
    mkState (voices s) (isLoading s) (error s) (showCloneDialog s)
      (playingVoiceId s) (cloneName s) (cloneCharacter s) v).

(** The mock data [loadVoices] installs. *)
Definition mockVoices : list VoiceProfile.t :=
  [ {| VoiceProfile.id := "voice-1";
       VoiceProfile.name := "Hero Voice";
       VoiceProfile.characterName := Some "Hero";
       VoiceProfile.description := Some "Deep, confident male voice";
       VoiceProfile.previewUrl := None;
       VoiceProfile.category := cloned;
       VoiceProfile.settings :=
         {| stability := Fin 0.5; similarityBoost := Fin 0.75; style := zero;
            useSpeakerBoost := true |} |};
    {| VoiceProfile.id := "voice-2";
       VoiceProfile.name := "Narrator";
       VoiceProfile.characterName := Some "Narrator";
       VoiceProfile.description := Some "Warm, storytelling voice";
       VoiceProfile.previewUrl := None;
       VoiceProfile.category := premade;
       VoiceProfile.settings :=
         {| stability := Fin 0.7; similarityBoost := Fin 0.8; style := Fin 0.2;
            useSpeakerBoost := false |} |} ].

Definition loadVoices : M Panel unit :=
  setIsLoading true ;;;
  setError None ;;;
  try_finally
    (try_catch
       (setVoices (fun _ => mockVoices))
       (fun err =>
          console_error "Failed to load voices:" (describe err) ;;;
          setError (Some "Failed to load voice profiles")))
    (setIsLoading false).

Definition handleCloneVoice (rendered : State) (now : Z) : M Panel unit :=
  if negb (truthy_string (trim (cloneName rendered))) then ret tt
  else
    setIsCloning true ;;;
    try_finally
      (try_catch
         (let newVoice :=
            {| VoiceProfile.id := "voice-" ++ string_of_Z now;
               VoiceProfile.name := cloneName rendered;
               VoiceProfile.characterName :=
                 if truthy_string (cloneCharacter rendered)
                 then Some (cloneCharacter rendered) else None;
               VoiceProfile.description := None;
               VoiceProfile.previewUrl := None;
               VoiceProfile.category := cloned;
               VoiceProfile.settings :=
                 {| stability := Fin 0.5; similarityBoost := Fin 0.75;
                    style := zero; useSpeakerBoost := true |} |} in
          setVoices (fun prev => (prev ++ [newVoice])%list) ;;;
          setShowCloneDialog false ;;;
          setCloneName "" ;;;
          setCloneCharacter "")
         (fun err =>
            console_error "Failed to clone voice:" (describe err) ;;;
            setError (Some "Failed to clone voice")))
      (setIsCloning false).

(** The [disabled] attribute of the "Clone Voice" button. *)
Definition cloneDisabled (rendered : State) : bool :=
  isCloning rendered || negb (truthy_string (trim (cloneName rendered))).

(** The panel after its mount effect ([loadVoices]) has run. *)
Definition mounted : Panel :=
  exec loadVoices
    {| audioRef := Some Media.newAudio; state := initialState; console := [] |}.

Definition setPlayingVoiceId (v : option string) : M Panel unit :=
  setState (fun s =>
    mkState (voices s) (isLoading s) (error s) (showCloneDialog s)
      v (cloneName s) (cloneCharacter s) (isCloning s)).

Definition handlePlayPreview (rendered : State) (voice : VoiceProfile.t)
    (outcome : Promise) : M Panel unit :=
  if strict_eq (playingVoiceId rendered) (Some (VoiceProfile.id voice)) then
    (* Stop playing *)
    onAudioOpt Media.pause ;;;
    setPlayingVoiceId None
  else
    match VoiceProfile.previewUrl voice with
    | Some url =>
        if truthy_string url then
          audio <- readRef ;;
          match audio with
          | Some _ =>
              onAudio (Media.set_src url) ;;;
              _ <- onAudio (Media.play outcome) ;;
              setPlayingVoiceId (Some (VoiceProfile.id voice))
          | None => ret tt
          end
        else ret tt
    | None => ret tt
    end.

(** [v.id !== voiceId], the predicate [handleDeleteVoice] filters with. *)
Definition otherThan (voiceId : string) (v : VoiceProfile.t) : bool :=
  negb (String.eqb (VoiceProfile.id v) voiceId).


(** The [onEnded] attribute of the hidden [<audio>] element. *)
Definition onEnded : M Panel unit := setPlayingVoiceId None.

End VoiceControlPanel.

(* ================================================================== *)
(** ** Sample worlds, used to exercise the statements below *)

Module Samples.
Import React.

(** The provider after [playAudio("track-1", "blob:one")] succeeded. *)
Definition playing : AudioContext.Provider :=
  exec (AudioContext.run (AudioContext.PlayAudio "track-1" "blob:one" Fulfilled))
       AudioContext.mounted.

Definition track : MusicGenerationPanel.GeneratedTrack.t :=
  {| MusicGenerationPanel.GeneratedTrack.id := "track-1700000000000";
     MusicGenerationPanel.GeneratedTrack.prompt := "Heroic orchestral theme";
     MusicGenerationPanel.GeneratedTrack.style := "cinematic";
     MusicGenerationPanel.GeneratedTrack.mood := "tense";
     MusicGenerationPanel.GeneratedTrack.duration := Fin 30;
     MusicGenerationPanel.GeneratedTrack.audioUrl := Some "blob:one";
     MusicGenerationPanel.GeneratedTrack.createdAt := "2023-11-14T22:13:20.000Z" |}.

(** The music panel with [track] generated and playing, and a prompt of
    three spaces typed in. *)
Definition music : MusicGenerationPanel.Panel :=
  {| audioRef := Some (exec (Media.play Fulfilled)
                         (exec (Media.set_src "blob:one") Media.newAudio));
     state :=
       MusicGenerationPanel.mkState "   " "cinematic" "tense" (Fin 30) false None
         [track] (Some track) true zero (Fin 0.7);
     console := [] |}.

Definition sound : SoundEffectsPanel.GeneratedSound.t :=
  {| SoundEffectsPanel.GeneratedSound.id := "sfx-1700000000000";
     SoundEffectsPanel.GeneratedSound.prompt := "Rain on window";
     SoundEffectsPanel.GeneratedSound.category := "nature";
     SoundEffectsPanel.GeneratedSound.duration := Fin 3;
     SoundEffectsPanel.GeneratedSound.audioUrl := Some "blob:two";
     SoundEffectsPanel.GeneratedSound.createdAt := "2023-11-14T22:13:20.000Z" |}.

(** The sound panel with [sound] generated and playing, and a prompt of a
    tab and a space typed in. *)
Definition sounds : SoundEffectsPanel.Panel :=
  {| audioRef := Some (exec (Media.play Fulfilled)
                         (exec (Media.set_src "blob:two") Media.newAudio));
     state :=
       SoundEffectsPanel.mkState (String (ascii_of_nat 9) " ") "nature" (Fin 3)
         false None [sound] (Some "sfx-1700000000000");
     console := [] |}.

(** The voice panel with the clone dialog open and an empty name. *)
Definition voices : VoiceControlPanel.Panel :=
  exec (VoiceControlPanel.setShowCloneDialog true) VoiceControlPanel.mounted.

(** A track and a sound as [handleGenerate] makes them: no audio url yet. *)
Definition freshTrack : MusicGenerationPanel.GeneratedTrack.t :=
  {| MusicGenerationPanel.GeneratedTrack.id := "track-1700000000001";
     MusicGenerationPanel.GeneratedTrack.prompt := "Calm piano";
     MusicGenerationPanel.GeneratedTrack.style := "ambient";
     MusicGenerationPanel.GeneratedTrack.mood := "calm";
     MusicGenerationPanel.GeneratedTrack.duration := Fin 45;
     MusicGenerationPanel.GeneratedTrack.audioUrl := None;
     MusicGenerationPanel.GeneratedTrack.createdAt := "2023-11-14T22:13:20.001Z" |}.

Definition freshSound : SoundEffectsPanel.GeneratedSound.t :=
  {| SoundEffectsPanel.GeneratedSound.id := "sfx-1700000000001";
     SoundEffectsPanel.GeneratedSound.prompt := "Footsteps on gravel";
     SoundEffectsPanel.GeneratedSound.category := "foley";
     SoundEffectsPanel.GeneratedSound.duration := Fin 2;
     SoundEffectsPanel.GeneratedSound.audioUrl := None;
     SoundEffectsPanel.GeneratedSound.createdAt := "2023-11-14T22:13:20.001Z" |}.

(** The first mock voice, and a voice that has a preview. *)
Definition heroVoice : VoiceControlPanel.VoiceProfile.t :=
  hd (VoiceControlPanel.VoiceProfile.mk "" "" None None None
        VoiceControlPanel.cloned
        (VoiceControlPanel.mkSettings zero zero zero false))
     VoiceControlPanel.mockVoices.

Definition previewVoice : VoiceControlPanel.VoiceProfile.t :=
  {| VoiceControlPanel.VoiceProfile.id := "voice-3";
     VoiceControlPanel.VoiceProfile.name := "Guide";
     VoiceControlPanel.VoiceProfile.characterName := None;
     VoiceControlPanel.VoiceProfile.description := None;
     VoiceControlPanel.VoiceProfile.previewUrl := Some "blob:three";
     VoiceControlPanel.VoiceProfile.category := VoiceControlPanel.premade;
     VoiceControlPanel.VoiceProfile.settings :=
       VoiceControlPanel.mkSettings (Fin 0.5) (Fin 0.75) zero true |}.

(** The music panel with a second, fresh track in its list. *)
Definition musicTwo : MusicGenerationPanel.Panel :=
  exec (MusicGenerationPanel.setTracks (fun prev => freshTrack :: prev)) music.

End Samples.

(* ================================================================== *)
(** * Properties *)

(** ** Numbers, comparison and clamping *)

Section Numbers.

Lemma strict_eq_true (a b : option string) :
  strict_eq a b = true <-> a = b.
Proof.
  destruct a as [x|], b as [y|]; simpl; split; try congruence.
  - intros H. apply String.eqb_eq in H. now subst.
  - intros H. injection H as ->. apply String.eqb_refl.
Qed.

Lemma strict_eq_false (a b : option string) :
  strict_eq a b = false <-> a <> b.
Proof.
  rewrite <- strict_eq_true. destruct (strict_eq a b); split; congruence.
Qed.

Lemma strict_eq_refl (a : option string) : strict_eq a a = true.
Proof. now apply strict_eq_true. Qed.

Lemma in_unit_intervalb_spec (n : number) :
  in_unit_intervalb n = true <-> in_unit_interval n.
Proof.
  unfold in_unit_intervalb.
  destruct n as [|[]|q]; simpl; try (split; [discriminate|tauto]).
  rewrite andb_true_iff, !Qle_bool_iff. tauto.
Qed.

(** The three cases of [Math.max(0, Math.min(1, v))] on a finite [v]. *)
Lemma clamp_finite (q : Q) :
  AudioContext.clamp (Fin q) =
    if Qle_bool 1 q then one
    else if Qle_bool 0 q then Fin q else zero.
Proof.
  unfold AudioContext.clamp, Math_min, Math_max, one, zero; simpl.
  destruct (Qle_bool 1 q) eqn:H1; simpl; [reflexivity|].
  destruct (Qle_bool 0 q); reflexivity.
Qed.

Lemma clamp_in_unit_interval (v : number) :
  isNaN v = false -> in_unit_interval (AudioContext.clamp v).
Proof.
  destruct v as [|[]|q]; simpl; try discriminate; intros _.
  - cbv. split; discriminate.
  - cbv. split; discriminate.
  - rewrite clamp_finite.
    destruct (Qle_bool 1 q) eqn:H1.
    + simpl. split; [discriminate | apply Qle_refl].
    + destruct (Qle_bool 0 q) eqn:H0; simpl.
      * split; [now apply Qle_bool_iff|].
        apply Qlt_le_weak, Qnot_le_lt. intros H.
        apply Qle_bool_iff in H. congruence.
      * split; [apply Qle_refl | discriminate].
Qed.

Lemma clamp_isFinite (v : number) :
  isNaN v = false -> isFinite (AudioContext.clamp v) = true.
Proof.
  intros H. apply clamp_in_unit_interval in H.
  destruct (AudioContext.clamp v); simpl in *; tauto.
Qed.

(** On a finite number the clamp is the mathematical [max 0 (min 1 q)]. *)
Lemma clamp_is_Qmax_Qmin (q : Q) :
  exists c, AudioContext.clamp (Fin q) = Fin c /\ (c == Qmax 0 (Qmin 1 q))%Q.
Proof.
  rewrite clamp_finite.
  destruct (Qle_bool 1 q) eqn:H1.
  - exists 1%Q. split; [reflexivity|].
    apply Qle_bool_iff in H1.
    symmetry. apply Qeq_trans with (Qmin 1 q).
    + apply Q.max_r, Q.min_glb; [discriminate|].
      apply Qle_trans with 1%Q; [discriminate | assumption].
    + now apply Q.min_l.
  - assert (Hq : (q < 1)%Q).
    { apply Qnot_le_lt. intros H. apply Qle_bool_iff in H. congruence. }
    destruct (Qle_bool 0 q) eqn:H0.
    + exists q. split; [reflexivity|].
      apply Qle_bool_iff in H0.
      symmetry. apply Qeq_trans with (Qmin 1 q).
      * apply Q.max_r, Q.min_glb; [discriminate | assumption].
      * now apply Q.min_r, Qlt_le_weak.
    + exists 0%Q. split; [reflexivity|].
      symmetry. apply Q.max_l.
      apply Qle_trans with q; [apply Q.le_min_r|].
      apply Qlt_le_weak, Qnot_le_lt. intros H.
      apply Qle_bool_iff in H. congruence.
Qed.

(** A value already in [[0,1]] is left as it is. *)
Lemma clamp_id (q : Q) :
  (0 <= q)%Q -> (q < 1)%Q -> AudioContext.clamp (Fin q) = Fin q.
Proof.
  intros H0 H1. rewrite clamp_finite.
  destruct (Qle_bool 1 q) eqn:E1.
  - apply Qle_bool_iff in E1. exfalso. apply (Qlt_not_le _ _ H1 E1).
  - apply Qle_bool_iff in H0. now rewrite H0.
Qed.

End Numbers.

(** ** Trimming *)

Section Trimming.

Lemma trimStart_whitespace_only (s : string) :
  whitespace_only s = true -> trimStart s = "".
Proof.
  induction s as [|c s IH]; simpl; [reflexivity|].
  intros H. apply andb_true_iff in H as [Hc Hs].
  rewrite Hc. now apply IH.
Qed.

Lemma trim_whitespace_only (s : string) :
  whitespace_only s = true -> trim s = "".
Proof.
  intros H. unfold trim. now rewrite trimStart_whitespace_only.
Qed.

Lemma trimEnd_empty (s : string) :
  trimEnd s = "" -> whitespace_only s = true.
Proof.
  induction s as [|c s IH]; simpl; [reflexivity|].
  destruct (isWhiteSpace c) eqn:Hc; simpl; [|discriminate].
  destruct (String.eqb (trimEnd s) "") eqn:He; [|discriminate].
  intros _. apply String.eqb_eq in He. now apply IH.
Qed.

Lemma whitespace_only_trimStart (s : string) :
  whitespace_only (trimStart s) = whitespace_only s.
Proof.
  induction s as [|c s IH]; simpl; [reflexivity|].
  destruct (isWhiteSpace c) eqn:Hc; simpl; [assumption|].
  now rewrite Hc.
Qed.

(** [!s.trim()] holds exactly of the whitespace-only strings. *)
Lemma trim_falsy_iff (s : string) :
  truthy_string (trim s) = false <-> whitespace_only s = true.
Proof.
  unfold truthy_string. rewrite negb_false_iff, String.eqb_eq. split.
  - intros H. unfold trim in H. apply trimEnd_empty in H.
    now rewrite whitespace_only_trimStart in H.
  - apply trim_whitespace_only.
Qed.

End Trimming.

(** ** The operations of the audio context, once the element exists *)

Section ContextOperations.
Import React AudioContext.

Variables (p : Provider) (a : Media.HTMLAudioElement).
Hypothesis Hmounted : audioRef p = Some a.

Lemma playAudio_mounted rendered id url outcome :
  playAudio rendered id url outcome p =
    (Normal tt,
     {| audioRef := Some (played rendered url outcome a);
        state :=
          {| currentlyPlayingId := Some id;
             currentlyPlayingUrl := Some url;
             isPlaying := true;
             currentTime := currentTime (state p);
             duration := duration (state p);
             volume := volume (state p) |};
        console :=
          match outcome with
          | Fulfilled => console p
          | Rejected reason =>
              (console p ++ [("Failed to play audio:", reason)])%list
          end |}).
Proof.
  destruct p as [ar st con]; simpl in *; subst ar.
  unfold playAudio, played, bind, readRef, onAudio, setState, modify, exec; simpl.
  destruct (strict_eq (currentlyPlayingUrl rendered) (Some url));
    destruct outcome; reflexivity.
Qed.

Lemma pauseAudio_mounted :
  pauseAudio p =
    (Normal tt,
     {| audioRef := Some (exec Media.pause a);
        state :=
          {| currentlyPlayingId := currentlyPlayingId (state p);
             currentlyPlayingUrl := currentlyPlayingUrl (state p);
             isPlaying := false;
             currentTime := currentTime (state p);
             duration := duration (state p);
             volume := volume (state p) |};
        console := console p |}).
Proof.
  destruct p as [ar st con]; simpl in *; subst ar. reflexivity.
Qed.

Lemma stopAudio_mounted :
  stopAudio p =
    (Normal tt,
     {| audioRef :=
          Some (exec (Media.set_currentTime zero) (exec Media.pause a));
        state :=
          {| currentlyPlayingId := None;
             currentlyPlayingUrl := None;
             isPlaying := false;
             currentTime := zero;
             duration := duration (state p);
             volume := volume (state p) |};
        console := console p |}).
Proof.
  destruct p as [ar st con]; simpl in *; subst ar. reflexivity.
Qed.

Lemma setVolume_mounted v :
  isNaN v = false ->
  setVolume v p =
    (Normal tt,
     {| audioRef :=
          Some {| Media.src := Media.src a;
                  Media.volume := clamp v;
                  Media.currentTime := Media.currentTime a;
                  Media.duration := Media.duration a;
                  Media.paused := Media.paused a;
                  Media.calls := Media.calls a |};
        state :=
          {| currentlyPlayingId := currentlyPlayingId (state p);
             currentlyPlayingUrl := currentlyPlayingUrl (state p);
             isPlaying := isPlaying (state p);
             currentTime := currentTime (state p);
             duration := duration (state p);
             volume := clamp v |};
        console := console p |}).
Proof.
  intros Hv.
  destruct p as [ar st con]; simpl in *; subst ar.
  unfold setVolume, bind, readRef, onAudio, setState, modify; simpl.
  unfold Media.set_volume.
  rewrite (clamp_isFinite v Hv); simpl.
  assert (Hb : in_unit_intervalb (clamp v) = true)
    by now apply in_unit_intervalb_spec, clamp_in_unit_interval.
  rewrite Hb; reflexivity.
Qed.

(** Whatever the step, the element stays. *)
Lemma run_keeps_element (act : Action) :
  exists a', audioRef (exec (run act) p) = Some a'.
Proof.
  destruct p as [ar st con]; simpl in *; subst ar.
  destruct act as [|id url o| | |id url o|t|v|e]; unfold exec, run; simpl.
  - eexists; reflexivity.
  - unfold playAudio, bind, readRef, onAudio, setState, modify; simpl.
    destruct (strict_eq (currentlyPlayingUrl st) (Some url));
      destruct o; simpl; eexists; reflexivity.
  - eexists; reflexivity.
  - eexists; reflexivity.
  - unfold togglePlayPause.
    destruct (strict_eq (currentlyPlayingId st) (Some id) && isPlaying st).
    + eexists; reflexivity.
    + unfold playAudio, bind, readRef, onAudio, setState, modify; simpl.
      destruct (strict_eq (currentlyPlayingUrl st) (Some url));
        destruct o; simpl; eexists; reflexivity.
  - unfold seekTo, bind, readRef, onAudio, setState, modify; simpl.
    unfold Media.set_currentTime.
    destruct (isFinite t); simpl; eexists; reflexivity.
  - unfold setVolume, bind, readRef, onAudio, setState, modify; simpl.
    unfold Media.set_volume.
    destruct (isFinite (clamp v)); simpl; [|eexists; reflexivity].
    destruct (in_unit_intervalb (clamp v)); simpl; eexists; reflexivity.
  - destruct e; eexists; reflexivity.
Qed.

End ContextOperations.

(** ** Runs of the provider *)

Section Runs.
Import React AudioContext.

(** Before the provider's effect has run nothing can have changed. *)
Lemma run_unmounted (act : Action) :
  exec (run act) initialProvider = initialProvider \/
  exec (run act) initialProvider = mounted.
Proof.
  destruct act as [|id url o| | |id url o|t|v|e];
    try (left; reflexivity).
  right; reflexivity.
Qed.

Lemma mounted_has_element : exists a, audioRef mounted = Some a.
Proof. eexists; reflexivity. Qed.

(** A reachable provider either is the initial one or has its element. *)
Lemma reachable_cases (p : Provider) :
  reachable p -> p = initialProvider \/ exists a, audioRef p = Some a.
Proof.
  induction 1 as [|act p Hp IH].
  - now left.
  - destruct IH as [-> | [a Ha]].
    + destruct (run_unmounted act) as [-> | ->].
      * now left.
      * right. apply mounted_has_element.
    + right. now apply run_keeps_element with (a := a).
Qed.

(** The track is marked playing only once the element exists. *)
Lemma playing_has_element (p : Provider) :
  reachable p -> isPlaying (state p) = true ->
  exists a, audioRef p = Some a.
Proof.
  intros Hp Hplaying.
  destruct (reachable_cases p Hp) as [-> | H]; [discriminate | exact H].
Qed.

Lemma url_has_element (p : Provider) (url : string) :
  reachable p -> currentlyPlayingUrl (state p) = Some url ->
  exists a, audioRef p = Some a.
Proof.
  intros Hp Hurl.
  destruct (reachable_cases p Hp) as [-> | H]; [discriminate | exact H].
Qed.

Lemma reachable_mounted : reachable mounted.
Proof. exact (reachable_step Mount _ reachable_initial). Qed.

End Runs.

(** ** Volume *)

Section Volume.
Import React AudioContext.

(** C1 (as amended).  For every input [v] that is not NaN, once the audio
    element exists, [setVolume v] completes normally and sets both the media
    element's volume and the state's [volume] to
    [Math.max(0, Math.min(1, v))], a value of the closed interval [[0,1]]
    (on a finite [v], the rational [max 0 (min 1 v)]).
    [MusicGenerationPanel.handleVolumeChange] does not clamp: it stores
    [parseFloat(e.target.value)] as it is. *)
Theorem setVolume_clamps_and_panel_stores_parsed
    (v : number) (p : Provider) (a : Media.HTMLAudioElement) :
  isNaN v = false ->
  audioRef p = Some a ->
  let p' := exec (setVolume v) p in
  completion (setVolume v) p = Normal tt /\
  option_map Media.volume (audioRef p') = Some (clamp v) /\
  volume (state p') = clamp v /\
  in_unit_interval (clamp v) /\
  (forall q : Q, v = Fin q ->
     exists c, clamp v = Fin c /\ (c == Qmax 0 (Qmin 1 q))%Q) /\
  (forall (value : string) (m : MusicGenerationPanel.Panel),
     MusicGenerationPanel.volume
       (state (exec (MusicGenerationPanel.handleVolumeChange value) m))
     = parseFloat value).
Proof.
  intros Hv Ha p'. subst p'. unfold exec, completion.
  rewrite (setVolume_mounted p a Ha v Hv); simpl.
  repeat split; try apply (clamp_in_unit_interval v Hv).
  { intros q ->. apply clamp_is_Qmax_Qmin. }
  intros value [ar st con].
  unfold MusicGenerationPanel.handleVolumeChange, MusicGenerationPanel.setVolume,
    bind, readRef, onAudio, setState, modify; simpl.
  destruct ar as [e|]; simpl; [|reflexivity].
  destruct (Media.set_volume (parseFloat value) e); reflexivity.
Qed.

Lemma setVolume_clamps_and_panel_stores_parsed_witness :
  isNaN (Fin 1.5) = false /\
  audioRef mounted = Some (exec (Media.set_volume (Fin 0.7)) Media.newAudio) /\
  completion (setVolume (Fin 1.5)) mounted = Normal tt /\
  option_map Media.volume (audioRef (exec (setVolume (Fin 1.5)) mounted))
    = Some one /\
  volume (state (exec (setVolume (Fin 1.5)) mounted)) = one /\
  in_unit_interval one.
Proof.
  pose proof (setVolume_clamps_and_panel_stores_parsed
                (Fin 1.5) mounted _ eq_refl eq_refl) as H.
  split; [reflexivity|]. split; [reflexivity|].
  split; [exact (proj1 H)|].
  split; [exact (proj1 (proj2 H))|].
  split; [exact (proj1 (proj2 (proj2 H)))|].
  exact (proj1 (proj2 (proj2 (proj2 H)))).
Defined.

(** C1, the counterexample: on the input string ["5"] the panel's
    [handleVolumeChange] stores the volume 5, which is not in [[0,1]]. *)
Lemma handleVolumeChange_stores_out_of_range :
  MusicGenerationPanel.volume
    (state (exec (MusicGenerationPanel.handleVolumeChange "5")
                 MusicGenerationPanel.mounted)) = Fin 5 /\
  ~ in_unit_interval (Fin 5).
Proof.
  split; [reflexivity|].
  intros [_ H]. apply H. reflexivity.
Qed.

End Volume.

(** ** Play, pause and toggle *)

Section Playback.
Import React AudioContext.

(** C2.  When the state has [currentlyPlayingId] equal to [id] and
    [isPlaying] true, [togglePlayPause(id, url)] is [pauseAudio]: the element
    is paused, [isPlaying] becomes false and [currentlyPlayingId] is still
    [id].  The panels' handlers do likewise on the item marked playing:
    [handlePlayTrack] pauses the element and clears [isPlaying] (keeping the
    current track), [handlePlaySound] pauses it and clears
    [playingSoundId]. *)
Theorem toggle_on_playing_track_pauses
    (p : Provider) (id url : string) (outcome : Promise)
    (m : MusicGenerationPanel.Panel)
    (track : MusicGenerationPanel.GeneratedTrack.t) (o1 : Promise)
    (s : SoundEffectsPanel.Panel)
    (sound : SoundEffectsPanel.GeneratedSound.t) (o2 : Promise) :
  reachable p ->
  currentlyPlayingId (state p) = Some id ->
  isPlaying (state p) = true ->
  option_map MusicGenerationPanel.GeneratedTrack.id
    (MusicGenerationPanel.currentTrack (state m))
    = Some (MusicGenerationPanel.GeneratedTrack.id track) ->
  MusicGenerationPanel.isPlaying (state m) = true ->
  SoundEffectsPanel.playingSoundId (state s)
    = Some (SoundEffectsPanel.GeneratedSound.id sound) ->
  let p' := exec (togglePlayPause (state p) id url outcome) p in
  let m' := exec (MusicGenerationPanel.handlePlayTrack (state m) track o1) m in
  let s' := exec (SoundEffectsPanel.handlePlaySound (state s) sound o2) s in
  (togglePlayPause (state p) id url outcome p = pauseAudio p /\
   completion (togglePlayPause (state p) id url outcome) p = Normal tt /\
   (exists a, audioRef p = Some a /\ audioRef p' = Some (exec Media.pause a)) /\
   isPlaying (state p') = false /\
   currentlyPlayingId (state p') = Some id) /\
  (audioRef m' = option_map (exec Media.pause) (audioRef m) /\
   MusicGenerationPanel.isPlaying (state m') = false /\
   MusicGenerationPanel.currentTrack (state m')
     = MusicGenerationPanel.currentTrack (state m)) /\
  (audioRef s' = option_map (exec Media.pause) (audioRef s) /\
   SoundEffectsPanel.playingSoundId (state s') = None).
Proof.
  intros Hp Hid Hplaying Htrack Hmplaying Hsound p' m' s'.
  split; [|split].
  - assert (Htoggle : togglePlayPause (state p) id url outcome p = pauseAudio p).
    { unfold togglePlayPause. rewrite Hid, strict_eq_refl, Hplaying. reflexivity. }
    destruct (playing_has_element p Hp Hplaying) as [a Ha].
    subst p'. unfold exec, completion. rewrite Htoggle.
    rewrite (pauseAudio_mounted p a Ha); simpl.
    repeat split; try assumption.
    exists a. split; [assumption | reflexivity].
  - subst m'. unfold MusicGenerationPanel.handlePlayTrack,
      MusicGenerationPanel.isCurrent.
    rewrite Htrack, strict_eq_refl, Hmplaying; simpl.
    destruct m as [[e|] st con]; simpl; repeat split; reflexivity.
  - subst s'. unfold SoundEffectsPanel.handlePlaySound.
    rewrite Hsound, strict_eq_refl.
    destruct s as [[e|] st con]; simpl; repeat split; reflexivity.
Qed.

Lemma isCurrentlyPlaying_iff (st : AudioState) (id : string) :
  isCurrentlyPlaying st id = true <->
  currentlyPlayingId st = Some id /\ isPlaying st = true.
Proof.
  unfold isCurrentlyPlaying. now rewrite andb_true_iff, strict_eq_true.
Qed.

(** C3.  In every reachable state (the provider's effect, the six
    operations and the element's events in any order), at most one track
    id is marked currently playing: for distinct [id1] and [id2],
    [isCurrentlyPlaying(id1)] and [isCurrentlyPlaying(id2)] are not both
    true. *)
Theorem at_most_one_currently_playing
    (p : Provider) (id1 id2 : string) :
  reachable p ->
  id1 <> id2 ->
  ~ (cv_isCurrentlyPlaying (value (state p)) id1 = true /\
     cv_isCurrentlyPlaying (value (state p)) id2 = true).
Proof.
  intros _ Hneq [H1 H2]. simpl in H1, H2.
  apply isCurrentlyPlaying_iff in H1 as [H1 _].
  apply isCurrentlyPlaying_iff in H2 as [H2 _].
  congruence.
Qed.

Lemma playAudio_never_throws rendered id url outcome (w : Provider) :
  completion (playAudio rendered id url outcome) w = Normal tt.
Proof.
  destruct (audioRef w) as [a|] eqn:Ha.
  - unfold completion. now rewrite (playAudio_mounted w a Ha).
  - destruct w as [ar st con]; simpl in Ha; subst ar. reflexivity.
Qed.

(** C4.  [playAudio(id, url)] never throws.  When the element's [play()]
    promise rejects, the rejection is caught and shows only as one
    [console.error] entry; the state update still takes effect
    ([currentlyPlayingId = id], [currentlyPlayingUrl = url],
    [isPlaying = true]), the state being the one a successful play leaves. *)
Theorem playAudio_catches_rejection
    (p : Provider) (a : Media.HTMLAudioElement) (id url reason : string) :
  audioRef p = Some a ->
  let p' := exec (playAudio (state p) id url (Rejected reason)) p in
  (forall rendered i u outcome (w : Provider),
     completion (playAudio rendered i u outcome) w = Normal tt) /\
  console p' = (console p ++ [("Failed to play audio:", reason)])%list /\
  currentlyPlayingId (state p') = Some id /\
  currentlyPlayingUrl (state p') = Some url /\
  isPlaying (state p') = true /\
  state p' = state (exec (playAudio (state p) id url Fulfilled) p).
Proof.
  intros Ha p'. split; [intros; apply playAudio_never_throws|].
  subst p'. unfold exec.
  rewrite !(playAudio_mounted p a Ha); simpl.
  repeat split; reflexivity.
Qed.

(** C5.  With the element in place and [url2] different from the state's
    [currentlyPlayingUrl], [playAudio(id2, url2)] assigns the element's [src]
    to [url2] and reloads it (one [load()], then [play()]; the position is
    back at 0), and the state records only the new track.  [pauseAudio] and
    [stopAudio] both pause the element, and [stopAudio] also resets
    [currentTime] to 0. *)
Theorem replacing_or_pausing_stops_playback
    (p : Provider) (a : Media.HTMLAudioElement) (id2 url2 : string)
    (outcome : Promise) :
  audioRef p = Some a ->
  currentlyPlayingUrl (state p) <> Some url2 ->
  let p' := exec (playAudio (state p) id2 url2 outcome) p in
  (exists a',
     audioRef p' = Some a' /\
     Media.src a' = url2 /\
     Media.calls a' = (Media.calls a ++ [Media.Load; Media.Play])%list /\
     Media.currentTime a' = zero) /\
  (currentlyPlayingId (state p') = Some id2 /\
   currentlyPlayingUrl (state p') = Some url2) /\
  (exists a1,
     audioRef (exec pauseAudio p) = Some a1 /\
     Media.paused a1 = true /\
     Media.calls a1 = (Media.calls a ++ [Media.Pause])%list) /\
  (exists a2,
     audioRef (exec stopAudio p) = Some a2 /\
     Media.paused a2 = true /\
     Media.calls a2 = (Media.calls a ++ [Media.Pause])%list /\
     Media.currentTime a2 = zero /\
     currentTime (state (exec stopAudio p)) = zero).
Proof.
  intros Ha Hurl p'. apply strict_eq_false in Hurl.
  subst p'. unfold exec.
  rewrite (playAudio_mounted p a Ha), (pauseAudio_mounted p a Ha),
    (stopAudio_mounted p a Ha); simpl.
  unfold played. rewrite Hurl; simpl.
  repeat split.
  - eexists. split; [reflexivity|].
    destruct outcome; simpl; rewrite <- app_assoc; repeat split; reflexivity.
  - eexists. repeat split; reflexivity.
  - eexists. repeat split; reflexivity.
Qed.

(** C10.  [playAudio] decides on the reload by the url: when [url] is the
    state's [currentlyPlayingUrl] and [id2] is not its [currentlyPlayingId],
    [playAudio(id2, url)] neither assigns [src] nor calls [load()] (only
    [play()]; the position is kept), yet [currentlyPlayingId] becomes
    [id2]. *)
Theorem same_url_is_not_reloaded
    (p : Provider) (id2 url : string) (outcome : Promise) :
  reachable p ->
  currentlyPlayingUrl (state p) = Some url ->
  currentlyPlayingId (state p) <> Some id2 ->
  let p' := exec (playAudio (state p) id2 url outcome) p in
  exists a a',
    audioRef p = Some a /\
    audioRef p' = Some a' /\
    Media.src a' = Media.src a /\
    Media.calls a' = (Media.calls a ++ [Media.Play])%list /\
    Media.currentTime a' = Media.currentTime a /\
    currentlyPlayingId (state p') = Some id2 /\
    currentlyPlayingUrl (state p') = Some url.
Proof.
  intros Hp Hurl _ p'.
  destruct (url_has_element p url Hp Hurl) as [a Ha].
  subst p'. unfold exec. rewrite (playAudio_mounted p a Ha); simpl.
  unfold played. rewrite Hurl, strict_eq_refl; simpl.
  exists a. eexists. split; [assumption|]. split; [reflexivity|].
  destruct outcome; repeat split; reflexivity.
Qed.

(** C9.  In every reachable state, after [stopAudio] the fields [isPlaying],
    [currentTime], [currentlyPlayingId] and [currentlyPlayingUrl] are false,
    0, null and null, while [volume] and [duration] (and the element's
    volume) are what they were.  [pauseAudio] changes no state field but
    [isPlaying]. *)
Theorem stop_and_pause_frame (p : Provider) :
  reachable p ->
  let p' := exec stopAudio p in
  let q' := exec pauseAudio p in
  (isPlaying (state p') = false /\
   currentTime (state p') = zero /\
   currentlyPlayingId (state p') = None /\
   currentlyPlayingUrl (state p') = None) /\
  (volume (state p') = volume (state p) /\
   duration (state p') = duration (state p) /\
   option_map Media.volume (audioRef p') = option_map Media.volume (audioRef p)) /\
  (currentlyPlayingId (state q') = currentlyPlayingId (state p) /\
   currentlyPlayingUrl (state q') = currentlyPlayingUrl (state p) /\
   currentTime (state q') = currentTime (state p) /\
   duration (state q') = duration (state p) /\
   volume (state q') = volume (state p)).
Proof.
  intros Hp p' q'. subst p' q'. unfold exec.
  destruct (reachable_cases p Hp) as [-> | [a Ha]].
  - simpl. repeat split; reflexivity.
  - rewrite (stopAudio_mounted p a Ha), (pauseAudio_mounted p a Ha); simpl.
    rewrite Ha. repeat split; reflexivity.
Qed.

End Playback.

(** ** Witnesses of the playback statements *)

Section PlaybackWitnesses.
Import React AudioContext.

Lemma reachable_playing : reachable Samples.playing.
Proof. exact (reachable_step _ _ reachable_mounted). Qed.

Lemma toggle_on_playing_track_pauses_witness :
  (currentlyPlayingId (state Samples.playing) = Some "track-1" /\
   isPlaying (state Samples.playing) = true) /\
  isPlaying
    (state (exec (togglePlayPause (state Samples.playing)
                    "track-1" "blob:one" Fulfilled) Samples.playing)) = false /\
  currentlyPlayingId
    (state (exec (togglePlayPause (state Samples.playing)
                    "track-1" "blob:one" Fulfilled) Samples.playing))
    = Some "track-1" /\
  MusicGenerationPanel.isPlaying
    (state (exec (MusicGenerationPanel.handlePlayTrack (state Samples.music)
                    Samples.track Fulfilled) Samples.music)) = false /\
  SoundEffectsPanel.playingSoundId
    (state (exec (SoundEffectsPanel.handlePlaySound (state Samples.sounds)
                    Samples.sound Fulfilled) Samples.sounds)) = None.
Proof.
  pose proof (toggle_on_playing_track_pauses
                Samples.playing "track-1" "blob:one" Fulfilled
                Samples.music Samples.track Fulfilled
                Samples.sounds Samples.sound Fulfilled
                reachable_playing eq_refl eq_refl eq_refl eq_refl eq_refl)
    as [[_ [_ [_ [H1 H2]]]] [[_ [H3 _]] [_ H4]]].
  split; [split; reflexivity|].
  split; [exact H1|]. split; [exact H2|]. split; [exact H3 | exact H4].
Defined.

Lemma at_most_one_currently_playing_witness :
  "track-1" <> "track-2" /\
  ~ (cv_isCurrentlyPlaying (value (state Samples.playing)) "track-1" = true /\
     cv_isCurrentlyPlaying (value (state Samples.playing)) "track-2" = true).
Proof.
  assert (Hneq : "track-1" <> "track-2") by discriminate.
  split; [exact Hneq|].
  exact (at_most_one_currently_playing Samples.playing "track-1" "track-2"
           reachable_playing Hneq).
Defined.

Lemma playAudio_catches_rejection_witness :
  audioRef mounted <> None /\
  console (exec (playAudio (state mounted) "track-1" "blob:one"
                   (Rejected "NotAllowedError")) mounted)
    = [("Failed to play audio:", "NotAllowedError")] /\
  isPlaying (state (exec (playAudio (state mounted) "track-1" "blob:one"
                            (Rejected "NotAllowedError")) mounted)) = true.
Proof.
  pose proof (playAudio_catches_rejection mounted _ "track-1" "blob:one"
                "NotAllowedError" eq_refl) as [_ [H1 [_ [_ [H2 _]]]]].
  split; [discriminate|]. split; [exact H1 | exact H2].
Defined.

Lemma replacing_or_pausing_stops_playback_witness :
  currentlyPlayingUrl (state Samples.playing) <> Some "blob:two" /\
  currentlyPlayingId
    (state (exec (playAudio (state Samples.playing) "track-2" "blob:two"
                    Fulfilled) Samples.playing)) = Some "track-2" /\
  currentlyPlayingUrl
    (state (exec (playAudio (state Samples.playing) "track-2" "blob:two"
                    Fulfilled) Samples.playing)) = Some "blob:two".
Proof.
  assert (Hurl : currentlyPlayingUrl (state Samples.playing) <> Some "blob:two")
    by discriminate.
  split; [exact Hurl|].
  exact (proj1 (proj2 (replacing_or_pausing_stops_playback
                         Samples.playing _ "track-2" "blob:two" Fulfilled
                         eq_refl Hurl))).
Defined.

Lemma same_url_is_not_reloaded_witness :
  currentlyPlayingUrl (state Samples.playing) = Some "blob:one" /\
  currentlyPlayingId (state Samples.playing) <> Some "track-2" /\
  exists a a',
    audioRef Samples.playing = Some a /\
    audioRef (exec (playAudio (state Samples.playing) "track-2" "blob:one"
                      Fulfilled) Samples.playing) = Some a' /\
    Media.src a' = Media.src a /\
    Media.calls a' = (Media.calls a ++ [Media.Play])%list /\
    Media.currentTime a' = Media.currentTime a /\
    currentlyPlayingId
      (state (exec (playAudio (state Samples.playing) "track-2" "blob:one"
                      Fulfilled) Samples.playing)) = Some "track-2" /\
    currentlyPlayingUrl
      (state (exec (playAudio (state Samples.playing) "track-2" "blob:one"
                      Fulfilled) Samples.playing)) = Some "blob:one".
Proof.
  assert (Hid : currentlyPlayingId (state Samples.playing) <> Some "track-2")
    by discriminate.
  split; [reflexivity|]. split; [exact Hid|].
  exact (same_url_is_not_reloaded Samples.playing "track-2" "blob:one" Fulfilled
           reachable_playing eq_refl Hid).
Defined.

Lemma stop_and_pause_frame_witness :
  isPlaying (state Samples.playing) = true /\
  isPlaying (state (exec stopAudio Samples.playing)) = false /\
  currentlyPlayingId (state (exec stopAudio Samples.playing)) = None /\
  volume (state (exec stopAudio Samples.playing))
    = volume (state Samples.playing) /\
  currentlyPlayingId (state (exec pauseAudio Samples.playing))
    = Some "track-1".
Proof.
  pose proof (stop_and_pause_frame Samples.playing reachable_playing)
    as [[H1 [_ [H2 _]]] [[H3 _] [H4 _]]].
  split; [reflexivity|]. split; [exact H1|]. split; [exact H2|].
  split; [exact H3 | exact H4].
Defined.

End PlaybackWitnesses.

(** ** Form validation *)

Section Forms.
Import React.

(** A prompt that has something to say does reach the list: the guard of
    [handleGenerate] stops nothing else. *)
Lemma handleGenerate_adds_track
    (m : MusicGenerationPanel.Panel) (now : Z) (iso : string) :
  whitespace_only (MusicGenerationPanel.prompt (state m)) = false ->
  exists t,
    MusicGenerationPanel.tracks
      (state (exec (MusicGenerationPanel.handleGenerate (state m) now iso) m))
    = t :: MusicGenerationPanel.tracks (state m) /\
    MusicGenerationPanel.GeneratedTrack.prompt t
    = MusicGenerationPanel.prompt (state m).
Proof.
  intros Hw. unfold MusicGenerationPanel.handleGenerate.
  destruct (truthy_string (trim (MusicGenerationPanel.prompt (state m)))) eqn:Ht.
  - simpl. eexists. split; reflexivity.
  - apply trim_falsy_iff in Ht. congruence.
Qed.

(** C6.  For every prompt consisting only of whitespace (the empty string
    included) the submit handlers do nothing: [handleGenerate] of the music
    panel leaves [tracks] as it was, [handleGenerate] of the sound panel
    leaves [sounds] as it was, [handleCloneVoice] with such a name leaves
    [voices] as it was (each leaves its whole component untouched), and the
    three submit buttons are rendered disabled. *)
Theorem whitespace_prompt_is_not_submitted
    (m : MusicGenerationPanel.Panel) (s : SoundEffectsPanel.Panel)
    (v : VoiceControlPanel.Panel) (now : Z) (iso : string) :
  whitespace_only (MusicGenerationPanel.prompt (state m)) = true ->
  whitespace_only (SoundEffectsPanel.prompt (state s)) = true ->
  whitespace_only (VoiceControlPanel.cloneName (state v)) = true ->
  (MusicGenerationPanel.handleGenerate (state m) now iso m = (Normal tt, m) /\
   MusicGenerationPanel.tracks
     (state (exec (MusicGenerationPanel.handleGenerate (state m) now iso) m))
   = MusicGenerationPanel.tracks (state m) /\
   MusicGenerationPanel.generateDisabled (state m) = true) /\
  (SoundEffectsPanel.handleGenerate (state s) now iso s = (Normal tt, s) /\
   SoundEffectsPanel.sounds
     (state (exec (SoundEffectsPanel.handleGenerate (state s) now iso) s))
   = SoundEffectsPanel.sounds (state s) /\
   SoundEffectsPanel.generateDisabled (state s) = true) /\
  (VoiceControlPanel.handleCloneVoice (state v) now v = (Normal tt, v) /\
   VoiceControlPanel.voices
     (state (exec (VoiceControlPanel.handleCloneVoice (state v) now) v))
   = VoiceControlPanel.voices (state v) /\
   VoiceControlPanel.cloneDisabled (state v) = true).
Proof.
  intros Hm Hs Hv.
  apply trim_falsy_iff in Hm, Hs, Hv.
  unfold exec, MusicGenerationPanel.handleGenerate,
    MusicGenerationPanel.generateDisabled,
    SoundEffectsPanel.handleGenerate, SoundEffectsPanel.generateDisabled,
    VoiceControlPanel.handleCloneVoice, VoiceControlPanel.cloneDisabled.
  rewrite Hm, Hs, Hv; simpl.
  rewrite !orb_true_r. repeat split; reflexivity.
Qed.

Lemma whitespace_prompt_is_not_submitted_witness :
  (whitespace_only (MusicGenerationPanel.prompt (state Samples.music)) = true /\
   whitespace_only (SoundEffectsPanel.prompt (state Samples.sounds)) = true /\
   whitespace_only (VoiceControlPanel.cloneName (state Samples.voices)) = true) /\
  MusicGenerationPanel.tracks
    (state (exec (MusicGenerationPanel.handleGenerate (state Samples.music)
                    1700000000000 "2023-11-14T22:13:20.000Z") Samples.music))
  = [Samples.track] /\
  SoundEffectsPanel.sounds
    (state (exec (SoundEffectsPanel.handleGenerate (state Samples.sounds)
                    1700000000000 "2023-11-14T22:13:20.000Z") Samples.sounds))
  = [Samples.sound] /\
  VoiceControlPanel.voices
    (state (exec (VoiceControlPanel.handleCloneVoice (state Samples.voices)
                    1700000000000) Samples.voices))
  = VoiceControlPanel.mockVoices.
Proof.
  pose proof (whitespace_prompt_is_not_submitted
                Samples.music Samples.sounds Samples.voices
                1700000000000 "2023-11-14T22:13:20.000Z"
                eq_refl eq_refl eq_refl)
    as [[_ [H1 _]] [[_ [H2 _]] [_ [H3 _]]]].
  split; [repeat split; reflexivity|].
  split; [exact H1|]. split; [exact H2 | exact H3].
Defined.

End Forms.

(** ** Consumers of the context *)

Section Consumers.
Import React AudioContext.

(** C7.  Every consumer derives the playing status from the one shared
    state: [isCurrentlyPlaying(id)] is true exactly when
    [currentlyPlayingId] is [id] and [isPlaying] is true, and
    [useAudioPlayer(id, url)] reports [isPlaying = isCurrentlyPlaying(id)]
    and [isActive = (currentlyPlayingId === id)]. *)
Theorem playing_status_is_derived_from_state
    (st : AudioState) (id : string) (url : option string) :
  (cv_isCurrentlyPlaying (value st) id = true <->
   currentlyPlayingId st = Some id /\ isPlaying st = true) /\
  exists player,
    useAudioPlayer (Some (value st)) id url = Normal player /\
    ap_isPlaying player = cv_isCurrentlyPlaying (value st) id /\
    (ap_isActive player = true <-> currentlyPlayingId st = Some id).
Proof.
  split; [apply isCurrentlyPlaying_iff|].
  eexists. split; [reflexivity|]. simpl.
  split; [reflexivity | apply strict_eq_true].
Qed.

(** C8.  [useAudio] outside an [AudioProvider] (the context value is
    [null]) throws the error "useAudio must be used within an
    AudioProvider"; under a provider it does not throw and returns the
    context value. *)
Theorem useAudio_requires_provider :
  useAudio None
    = Throw (Error "useAudio must be used within an AudioProvider") /\
  (forall c : AudioContextValue, useAudio (Some c) = Normal c).
Proof. split; [reflexivity | intros c; reflexivity]. Qed.

End Consumers.


(* ================================================================== *)
(** * Further properties of the provider *)

(** ** Invariants of its runs *)

Section Invariants.
Import React AudioContext.

Ltac break_if :=
  match goal with
  | |- context [if ?c then _ else _] => destruct c eqn:?
  | |- context [match ?o with Fulfilled => _ | Rejected _ => _ end] => destruct o
  end.

(** One step of a run, by cases on the world and on the action. *)
Ltac run_cases p act :=
  destruct p as [[?a|] ?st ?con];
  destruct act as [|?id ?url ?o| | |?id ?url ?o|?t|?v|[?t|?d| | |]];
  unfold exec, run; simpl;
  unfold initializeAudio, togglePlayPause, playAudio, pauseAudio, stopAudio,
    seekTo, setVolume, dispatch, handleTimeUpdate, handleDurationChange,
    handleEnded, handlePlay, handlePause, bind, ret, catch, console_error,
    readRef, writeRef, onAudio, setState, modify, Media.set_currentTime,
    Media.set_volume, Media.set_src, Media.load, Media.play, Media.pause;
  simpl;
  repeat (break_if; simpl).

Lemma in_unit_interval_checks (n : number) :
  in_unit_interval n -> isFinite n = true /\ in_unit_intervalb n = true.
Proof.
  intros H. split; [|now apply in_unit_intervalb_spec].
  destruct n; simpl in *; tauto.
Qed.

Lemma step_volume_in_step (p : Provider) (act : Action) :
  volume_in_step p -> volume_in_step (exec (run act) p).
Proof.
  unfold volume_in_step.
  run_cases p act; simpl; intros [H1 H2];
    try (split; [exact H1|]);
    try (intros ? [= <-]; simpl; apply H2; reflexivity);
    try (intros; discriminate).
  - split.
    + apply in_unit_intervalb_spec. now apply negb_false_iff.
    + intros ? [= <-]. reflexivity.
  - apply in_unit_interval_checks in H1 as [Hf _].
    rewrite Hf in *. discriminate.
  - apply in_unit_interval_checks in H1 as [_ Hb].
    rewrite Hb in *. discriminate.
  - intros ? [= <-]. reflexivity.
Qed.

(** X1.  In every reachable state the state's [volume] lies in [[0,1]], and
    once the element exists its volume is the state's: [setVolume] writes
    both or (on NaN) neither, and nothing else writes either. *)
Theorem volume_stays_clamped_and_in_step (p : Provider) :
  reachable p ->
  in_unit_interval (volume (state p)) /\
  (forall a, audioRef p = Some a -> Media.volume a = volume (state p)).
Proof.
  induction 1 as [|act p Hp IH].
  - split; [|intros; discriminate].
    simpl. split; discriminate.
  - now apply step_volume_in_step.
Qed.

Lemma step_paired (p : Provider) (act : Action) :
  (currentlyPlayingId (state p) = None <-> currentlyPlayingUrl (state p) = None) ->
  (currentlyPlayingId (state (exec (run act) p)) = None <->
   currentlyPlayingUrl (state (exec (run act) p)) = None).
Proof.
  run_cases p act; simpl; intros H;
    try exact H; try (split; congruence); tauto.
Qed.

(** X2.  In every reachable state [currentlyPlayingId] and
    [currentlyPlayingUrl] are set together: one is null exactly when the
    other is. *)
Theorem id_and_url_are_set_together (p : Provider) :
  reachable p ->
  (currentlyPlayingId (state p) = None <-> currentlyPlayingUrl (state p) = None).
Proof.
  induction 1 as [|act p Hp IH].
  - simpl. tauto.
  - now apply step_paired.
Qed.

Lemma or_number_zero_not_NaN (d : number) : isNaN (or_number d zero) = false.
Proof.
  unfold or_number. destruct d as [|b|q]; simpl; try reflexivity.
  destruct (Qeq_bool q 0); reflexivity.
Qed.

Lemma step_duration (p : Provider) (act : Action) :
  isNaN (duration (state p)) = false ->
  isNaN (duration (state (exec (run act) p))) = false.
Proof.
  run_cases p act; simpl; intros H; try exact H.
  all: apply or_number_zero_not_NaN.
Qed.

(** X3.  In every reachable state the state's [duration] is a number, never
    NaN: the [durationchange] listener stores [audio.duration || 0]. *)
Theorem duration_is_never_NaN (p : Provider) :
  reachable p -> isNaN (duration (state p)) = false.
Proof.
  induction 1 as [|act p Hp IH]; [reflexivity|].
  now apply step_duration.
Qed.

End Invariants.

Section InvariantWitnesses.
Import React AudioContext.

Lemma volume_stays_clamped_and_in_step_witness :
  volume (state (exec (run (SetVolume (Fin 1.5))) Samples.playing)) = one /\
  in_unit_interval
    (volume (state (exec (run (SetVolume (Fin 1.5))) Samples.playing))) /\
  (forall a,
     audioRef (exec (run (SetVolume (Fin 1.5))) Samples.playing) = Some a ->
     Media.volume a
     = volume (state (exec (run (SetVolume (Fin 1.5))) Samples.playing))).
Proof.
  split; [reflexivity|].
  exact (volume_stays_clamped_and_in_step _
           (reachable_step (SetVolume (Fin 1.5)) _ reachable_playing)).
Defined.

Lemma id_and_url_are_set_together_witness :
  currentlyPlayingId (state Samples.playing) = Some "track-1" /\
  (currentlyPlayingId (state Samples.playing) = None <->
   currentlyPlayingUrl (state Samples.playing) = None).
Proof.
  split; [reflexivity|].
  exact (id_and_url_are_set_together _ reachable_playing).
Defined.

Lemma duration_is_never_NaN_witness :
  isNaN (duration
           (state (exec (run (Event (durationchange NaN))) Samples.playing)))
  = false.
Proof.
  exact (duration_is_never_NaN _
           (reachable_step (Event (durationchange NaN)) _ reachable_playing)).
Defined.

End InvariantWitnesses.

(** ** How the operations compose *)

Section Composition.
Import React AudioContext.

(** X4.  After [playAudio(id, url)] on a provider that has its element,
    [isCurrentlyPlaying] is true of [id] and of no other id. *)
Theorem playAudio_marks_exactly_its_id
    (p : Provider) (a : Media.HTMLAudioElement) (rendered : AudioState)
    (id url : string) (outcome : Promise) (other : string) :
  audioRef p = Some a ->
  (isCurrentlyPlaying
     (state (exec (playAudio rendered id url outcome) p)) other = true
   <-> other = id).
Proof.
  intros Ha. unfold exec. rewrite (playAudio_mounted p a Ha); simpl.
  rewrite isCurrentlyPlaying_iff; simpl.
  split; [intros [[= ->] _]; reflexivity | intros ->; now split].
Qed.

Lemma playAudio_marks_exactly_its_id_witness :
  isCurrentlyPlaying (state Samples.playing) "track-1" = true /\
  (isCurrentlyPlaying (state Samples.playing) "track-2" = true
   <-> "track-2" = "track-1").
Proof.
  split; [reflexivity|].
  exact (playAudio_marks_exactly_its_id mounted _ (state mounted)
           "track-1" "blob:one" Fulfilled "track-2" eq_refl).
Defined.

(** X5.  Pausing keeps the source, stopping forgets it.  From a provider
    that has just played [(id, url)]: after [pauseAudio], [togglePlayPause(id,
    url)] only calls [play()] again (no [src] assignment, no [load()], the
    element's position kept); after [stopAudio], it assigns [src] and calls
    [load()] before [play()], so playback starts over at 0.  Either way [id]
    is marked playing again. *)
Theorem pause_resumes_and_stop_reloads
    (p : Provider) (a : Media.HTMLAudioElement) (id url : string)
    (o1 o2 : Promise) :
  audioRef p = Some a ->
  let started := exec (run (PlayAudio id url o1)) p in
  let resumed :=
    exec (run (TogglePlayPause id url o2)) (exec (run PauseAudio) started) in
  let restarted :=
    exec (run (TogglePlayPause id url o2)) (exec (run StopAudio) started) in
  exists a0 a1 a2,
    audioRef started = Some a0 /\
    (audioRef resumed = Some a1 /\
     Media.calls a1 = (Media.calls a0 ++ [Media.Pause; Media.Play])%list /\
     Media.src a1 = Media.src a0 /\
     Media.currentTime a1 = Media.currentTime a0 /\
     isCurrentlyPlaying (state resumed) id = true) /\
    (audioRef restarted = Some a2 /\
     Media.calls a2
       = (Media.calls a0 ++ [Media.Pause; Media.Load; Media.Play])%list /\
     Media.src a2 = url /\
     Media.currentTime a2 = zero /\
     isCurrentlyPlaying (state restarted) id = true).
Proof.
  intros Ha started resumed restarted.
  subst started resumed restarted. unfold exec, run; simpl.
  rewrite (playAudio_mounted p a Ha); simpl.
  unfold togglePlayPause, playAudio, played, bind, readRef, onAudio, setState,
    modify, isCurrentlyPlaying; simpl.
  rewrite !String.eqb_refl; simpl.
  destruct o2; simpl; do 3 eexists;
    (split; [reflexivity|]);
    (split; (split; [reflexivity|]); simpl;
       rewrite <- ?app_assoc, ?String.eqb_refl; repeat split; reflexivity).
Qed.

Lemma pause_resumes_and_stop_reloads_witness :
  audioRef mounted <> None /\
  exists a0 a1 a2,
    audioRef Samples.playing = Some a0 /\
    (audioRef (exec (run (TogglePlayPause "track-1" "blob:one" Fulfilled))
                 (exec (run PauseAudio) Samples.playing)) = Some a1 /\
     Media.calls a1 = (Media.calls a0 ++ [Media.Pause; Media.Play])%list /\
     Media.src a1 = Media.src a0 /\
     Media.currentTime a1 = Media.currentTime a0 /\
     isCurrentlyPlaying
       (state (exec (run (TogglePlayPause "track-1" "blob:one" Fulfilled))
                 (exec (run PauseAudio) Samples.playing))) "track-1" = true) /\
    (audioRef (exec (run (TogglePlayPause "track-1" "blob:one" Fulfilled))
                 (exec (run StopAudio) Samples.playing)) = Some a2 /\
     Media.calls a2
       = (Media.calls a0 ++ [Media.Pause; Media.Load; Media.Play])%list /\
     Media.src a2 = "blob:one" /\
     Media.currentTime a2 = zero /\
     isCurrentlyPlaying
       (state (exec (run (TogglePlayPause "track-1" "blob:one" Fulfilled))
                 (exec (run StopAudio) Samples.playing))) "track-1" = true).
Proof.
  split; [discriminate|].
  exact (pause_resumes_and_stop_reloads mounted _ "track-1" "blob:one"
           Fulfilled Fulfilled eq_refl).
Defined.

(** X6.  The [ended] listener leaves the state exactly as [stopAudio] does,
    and after either no id is marked playing. *)
Theorem ended_resets_the_state_like_stop
    (p : Provider) (a : Media.HTMLAudioElement) (id : string) :
  audioRef p = Some a ->
  state (exec (run (Event ended)) p) = state (exec (run StopAudio) p) /\
  isCurrentlyPlaying (state (exec (run (Event ended)) p)) id = false /\
  isCurrentlyPlaying (state (exec (run StopAudio) p)) id = false.
Proof.
  intros Ha. destruct p as [ar st con]; simpl in Ha; subst ar.
  repeat split; reflexivity.
Qed.

Lemma ended_resets_the_state_like_stop_witness :
  isCurrentlyPlaying (state Samples.playing) "track-1" = true /\
  state (exec (run (Event ended)) Samples.playing)
  = state (exec (run StopAudio) Samples.playing) /\
  isCurrentlyPlaying (state (exec (run (Event ended)) Samples.playing))
    "track-1" = false.
Proof.
  pose proof (ended_resets_the_state_like_stop Samples.playing _ "track-1"
                eq_refl) as [H1 [H2 _]].
  split; [reflexivity|]. split; [exact H1 | exact H2].
Defined.

(** X7.  [seekTo] and [setVolume] never change which track is marked
    playing, whatever their argument and whether or not they complete:
    [currentlyPlayingId], [currentlyPlayingUrl] and [isPlaying] are as
    before. *)
Theorem seek_and_volume_keep_the_track (p : Provider) (t v : number) :
  (currentlyPlayingId (state (exec (seekTo t) p)) = currentlyPlayingId (state p) /\
   currentlyPlayingUrl (state (exec (seekTo t) p)) = currentlyPlayingUrl (state p) /\
   isPlaying (state (exec (seekTo t) p)) = isPlaying (state p)) /\
  (currentlyPlayingId (state (exec (setVolume v) p)) = currentlyPlayingId (state p) /\
   currentlyPlayingUrl (state (exec (setVolume v) p)) = currentlyPlayingUrl (state p) /\
   isPlaying (state (exec (setVolume v) p)) = isPlaying (state p)).
Proof.
  destruct p as [[a|] st con]; unfold exec, seekTo, setVolume, bind, readRef,
    onAudio, setState, modify, Media.set_currentTime, Media.set_volume; simpl.
  - destruct (isFinite t); simpl;
      destruct (isFinite (clamp v)); simpl;
      try destruct (in_unit_intervalb (clamp v)); simpl;
      repeat split; reflexivity.
  - repeat split; reflexivity.
Qed.

(** X8.  [seekTo] with a time that is not finite (NaN or an infinity) throws
    the element's TypeError and changes nothing, neither the element nor the
    state; with a finite time it completes and the element and the state
    both hold that time. *)
Theorem seekTo_rejects_non_finite_time
    (p : Provider) (a : Media.HTMLAudioElement) (t : number) :
  audioRef p = Some a ->
  if isFinite t then
    completion (seekTo t) p = Normal tt /\
    option_map Media.currentTime (audioRef (exec (seekTo t) p)) = Some t /\
    currentTime (state (exec (seekTo t) p)) = t
  else
    throws (completion (seekTo t) p) = true /\
    exec (seekTo t) p = p.
Proof.
  intros Ha. destruct p as [ar st con]; simpl in Ha; subst ar.
  unfold exec, completion, seekTo, bind, readRef, onAudio, setState, modify,
    Media.set_currentTime; simpl.
  destruct (isFinite t); simpl; repeat split; reflexivity.
Qed.

Lemma seekTo_rejects_non_finite_time_witness :
  audioRef Samples.playing <> None /\
  throws (completion (seekTo NaN) Samples.playing) = true /\
  exec (seekTo NaN) Samples.playing = Samples.playing.
Proof.
  split; [discriminate|].
  exact (seekTo_rejects_non_finite_time Samples.playing _ NaN eq_refl).
Defined.

(** X9.  Before the provider's effect has created the element
    ([audioRef.current] is null) each of the six operations returns without
    throwing and without changing anything. *)
Theorem operations_without_element_do_nothing
    (p : Provider) (rendered : AudioState) (id url : string)
    (outcome : Promise) (t v : number) :
  audioRef p = None ->
  playAudio rendered id url outcome p = (Normal tt, p) /\
  pauseAudio p = (Normal tt, p) /\
  stopAudio p = (Normal tt, p) /\
  togglePlayPause rendered id url outcome p = (Normal tt, p) /\
  seekTo t p = (Normal tt, p) /\
  setVolume v p = (Normal tt, p).
Proof.
  intros Ha. destruct p as [ar st con]; simpl in Ha; subst ar.
  unfold togglePlayPause.
  destruct (strict_eq (currentlyPlayingId rendered) (Some id) && isPlaying rendered);
    repeat split; reflexivity.
Qed.

Lemma operations_without_element_do_nothing_witness :
  audioRef initialProvider = None /\
  playAudio (state initialProvider) "track-1" "blob:one" Fulfilled initialProvider
  = (Normal tt, initialProvider) /\
  setVolume (Fin 0.2) initialProvider = (Normal tt, initialProvider).
Proof.
  pose proof (operations_without_element_do_nothing initialProvider
                (state initialProvider) "track-1" "blob:one" Fulfilled
                zero (Fin 0.2) eq_refl) as [H1 [_ [_ [_ [_ H2]]]]].
  split; [reflexivity|]. split; [exact H1 | exact H2].
Defined.

End Composition.

(** ** The per-track hook *)

Section Player.
Import React AudioContext.

(** X10.  A [useAudioPlayer(id, url)] whose [url] is undefined or empty is
    inert: its [play] and [toggle] return without touching the provider. *)
Theorem player_without_url_is_inert
    (st : AudioState) (id : string) (url : option string) :
  truthy_opt url = false ->
  exists player,
    useAudioPlayer (Some (value st)) id url = Normal player /\
    (forall outcome (p : Provider), ap_play player outcome p = (Normal tt, p)) /\
    (forall outcome (p : Provider), ap_toggle player outcome p = (Normal tt, p)).
Proof.
  intros Hurl. eexists. split; [reflexivity|]. simpl.
  destruct url as [u|]; simpl in Hurl; [rewrite Hurl|]; split; reflexivity.
Qed.

Lemma player_without_url_is_inert_witness :
  truthy_opt None = false /\
  exists player,
    useAudioPlayer (Some (value (state Samples.playing))) "track-2" None
    = Normal player /\
    (forall outcome (p : Provider), ap_play player outcome p = (Normal tt, p)) /\
    (forall outcome (p : Provider), ap_toggle player outcome p = (Normal tt, p)).
Proof.
  split; [reflexivity|].
  exact (player_without_url_is_inert (state Samples.playing) "track-2" None
           eq_refl).
Defined.

(** X11.  [useAudioPlayer(id, url)] reports the shared [currentTime] and
    [duration] only for the active id; for any other id it reports 0 and 0,
    and not playing. *)
Theorem player_reports_progress_only_when_active
    (st : AudioState) (id : string) (url : option string) :
  exists player,
    useAudioPlayer (Some (value st)) id url = Normal player /\
    if strict_eq (currentlyPlayingId st) (Some id) then
      ap_currentTime player = currentTime st /\
      ap_duration player = duration st /\
      ap_isPlaying player = isPlaying st
    else
      ap_currentTime player = zero /\
      ap_duration player = zero /\
      ap_isPlaying player = false.
Proof.
  eexists. split; [reflexivity|]. simpl. unfold isCurrentlyPlaying.
  destruct (strict_eq (currentlyPlayingId st) (Some id)); repeat split; reflexivity.
Qed.

End Player.

(* ================================================================== *)
(** * Further properties of the panels *)

Section Lists.


End Lists.

(** ** Generating and cloning *)

Section Generating.
Import React.

(** X12.  [MusicGenerationPanel.handleGenerate] with a prompt that is not
    blank completes normally, puts one new track at the head of [tracks]
    (id ["track-" + Date.now()], the prompt, style, mood and duration of the
    form, no [audioUrl]), clears the prompt, the error and [isGenerating];
    the button is then disabled and a second submit does nothing. *)
Theorem music_generate_prepends_one_track
    (m : MusicGenerationPanel.Panel) (now now' : Z) (iso iso' : string) :
  whitespace_only (MusicGenerationPanel.prompt (state m)) = false ->
  let m' := exec (MusicGenerationPanel.handleGenerate (state m) now iso) m in
  completion (MusicGenerationPanel.handleGenerate (state m) now iso) m = Normal tt /\
  MusicGenerationPanel.tracks (state m')
  = {| MusicGenerationPanel.GeneratedTrack.id := "track-" ++ string_of_Z now;
       MusicGenerationPanel.GeneratedTrack.prompt :=
         MusicGenerationPanel.prompt (state m);
       MusicGenerationPanel.GeneratedTrack.style :=
         MusicGenerationPanel.selectedStyle (state m);
       MusicGenerationPanel.GeneratedTrack.mood :=
         MusicGenerationPanel.selectedMood (state m);
       MusicGenerationPanel.GeneratedTrack.duration :=
         MusicGenerationPanel.duration (state m);
       MusicGenerationPanel.GeneratedTrack.audioUrl := None;
       MusicGenerationPanel.GeneratedTrack.createdAt := iso |}
    :: MusicGenerationPanel.tracks (state m) /\
  (MusicGenerationPanel.prompt (state m') = "" /\
   MusicGenerationPanel.error (state m') = None /\
   MusicGenerationPanel.isGenerating (state m') = false) /\
  (MusicGenerationPanel.currentTrack (state m')
   = MusicGenerationPanel.currentTrack (state m) /\
   MusicGenerationPanel.isPlaying (state m')
   = MusicGenerationPanel.isPlaying (state m) /\
   audioRef m' = audioRef m) /\
  MusicGenerationPanel.generateDisabled (state m') = true /\
  MusicGenerationPanel.handleGenerate (state m') now' iso' m' = (Normal tt, m').
Proof.
  intros Hw m'. subst m'.
  unfold exec, completion, MusicGenerationPanel.handleGenerate.
  destruct (truthy_string (trim (MusicGenerationPanel.prompt (state m)))) eqn:Ht.
  - simpl. repeat split; reflexivity.
  - apply trim_falsy_iff in Ht. congruence.
Qed.

Lemma music_generate_prepends_one_track_witness :
  whitespace_only "Heroic orchestral theme" = false /\
  length
    (MusicGenerationPanel.tracks
       (state
          (exec (MusicGenerationPanel.handleGenerate
                   (state (exec (MusicGenerationPanel.setPrompt
                                   "Heroic orchestral theme") Samples.music))
                   1700000000001 "2023-11-14T22:13:20.001Z")
             (exec (MusicGenerationPanel.setPrompt "Heroic orchestral theme")
                Samples.music)))) = 2%nat.
Proof.
  split; [reflexivity|].
  pose proof (music_generate_prepends_one_track
                (exec (MusicGenerationPanel.setPrompt "Heroic orchestral theme")
                   Samples.music)
                1700000000001 0 "2023-11-14T22:13:20.001Z" "" eq_refl)
    as [_ [H _]].
  exact (f_equal (@length _) H).
Defined.

(** X13.  [SoundEffectsPanel.handleGenerate] with a prompt that is not blank
    puts one new sound at the head of [sounds] and clears the prompt (the
    input is empty again).  The Enter key goes through the same gate as the
    button: whenever the button is disabled, a key press changes nothing. *)
Theorem sound_generate_prepends_and_enter_is_gated
    (s : SoundEffectsPanel.Panel) (key : string) (now : Z) (iso : string) :
  let s' := exec (SoundEffectsPanel.onKeyDown (state s) "Enter" now iso) s in
  if SoundEffectsPanel.generateDisabled (state s) then
    SoundEffectsPanel.onKeyDown (state s) key now iso s = (Normal tt, s)
  else
    SoundEffectsPanel.sounds (state s')
    = {| SoundEffectsPanel.GeneratedSound.id := "sfx-" ++ string_of_Z now;
         SoundEffectsPanel.GeneratedSound.prompt :=
           SoundEffectsPanel.prompt (state s);
         SoundEffectsPanel.GeneratedSound.category :=
           SoundEffectsPanel.category (state s);
         SoundEffectsPanel.GeneratedSound.duration :=
           SoundEffectsPanel.duration (state s);
         SoundEffectsPanel.GeneratedSound.audioUrl := None;
         SoundEffectsPanel.GeneratedSound.createdAt := iso |}
      :: SoundEffectsPanel.sounds (state s) /\
    SoundEffectsPanel.prompt (state s') = "" /\
    SoundEffectsPanel.isGenerating (state s') = false /\
    SoundEffectsPanel.playingSoundId (state s')
    = SoundEffectsPanel.playingSoundId (state s) /\
    s' = exec (SoundEffectsPanel.handleGenerate (state s) now iso) s.
Proof.
  unfold SoundEffectsPanel.generateDisabled, SoundEffectsPanel.onKeyDown,
    SoundEffectsPanel.handleGenerate, exec.
  destruct (SoundEffectsPanel.isGenerating (state s)); simpl.
  - now rewrite andb_false_r.
  - destruct (truthy_string (trim (SoundEffectsPanel.prompt (state s)))); simpl.
    + repeat split; reflexivity.
    + destruct (String.eqb key "Enter"); reflexivity.
Qed.

(** X14.  [handleCloneVoice] with a name that is not blank appends one
    voice at the end of [voices] (the earlier ones keep their places), of
    category "cloned", named as typed, with a character name only if one
    was typed; the dialog is closed, both inputs are emptied, and a second
    submit does nothing. *)
Theorem clone_appends_one_voice
    (v : VoiceControlPanel.Panel) (now now' : Z) :
  whitespace_only (VoiceControlPanel.cloneName (state v)) = false ->
  let v' := exec (VoiceControlPanel.handleCloneVoice (state v) now) v in
  completion (VoiceControlPanel.handleCloneVoice (state v) now) v = Normal tt /\
  (exists voice,
     VoiceControlPanel.voices (state v')
     = (VoiceControlPanel.voices (state v) ++ [voice])%list /\
     VoiceControlPanel.VoiceProfile.id voice = "voice-" ++ string_of_Z now /\
     VoiceControlPanel.VoiceProfile.name voice
     = VoiceControlPanel.cloneName (state v) /\
     VoiceControlPanel.VoiceProfile.category voice = VoiceControlPanel.cloned /\
     VoiceControlPanel.VoiceProfile.previewUrl voice = None /\
     (VoiceControlPanel.VoiceProfile.characterName voice = None <->
      VoiceControlPanel.cloneCharacter (state v) = "")) /\
  (VoiceControlPanel.showCloneDialog (state v') = false /\
   VoiceControlPanel.cloneName (state v') = "" /\
   VoiceControlPanel.cloneCharacter (state v') = "" /\
   VoiceControlPanel.isCloning (state v') = false) /\
  VoiceControlPanel.handleCloneVoice (state v') now' v' = (Normal tt, v').
Proof.
  intros Hw v'. subst v'.
  unfold exec, completion, VoiceControlPanel.handleCloneVoice.
  destruct (truthy_string (trim (VoiceControlPanel.cloneName (state v)))) eqn:Ht.
  - simpl. split; [reflexivity|]. split; [|split; [repeat split|]; reflexivity].
    eexists. split; [reflexivity|]. simpl. repeat split; try reflexivity.
    + unfold truthy_string.
      destruct (String.eqb_spec (VoiceControlPanel.cloneCharacter (state v)) "");
        simpl; [intros _; assumption | discriminate].
    + intros ->. reflexivity.
  - apply trim_falsy_iff in Ht. congruence.
Qed.

Lemma clone_appends_one_voice_witness :
  whitespace_only "Villain" = false /\
  map VoiceControlPanel.VoiceProfile.name
    (VoiceControlPanel.voices
       (state
          (exec (VoiceControlPanel.handleCloneVoice
                   (state (exec (VoiceControlPanel.setCloneName "Villain")
                             Samples.voices)) 1700000000002)
             (exec (VoiceControlPanel.setCloneName "Villain") Samples.voices))))
  = ["Hero Voice"; "Narrator"; "Villain"].
Proof.
  split; [reflexivity|].
  pose proof (clone_appends_one_voice
                (exec (VoiceControlPanel.setCloneName "Villain") Samples.voices)
                1700000000002 0 eq_refl) as [_ [[voice [H [_ [Hn _]]]] _]].
  rewrite H, map_app. simpl. rewrite Hn. reflexivity.
Defined.

End Generating.

(** ** Playing in the panels *)

Section PanelPlayback.
Import React.

(** X15.  An item without an audio url cannot be played: unless it is the
    one marked playing, [handlePlayTrack], [handlePlaySound] and
    [handlePlayPreview] leave their component untouched when the item's url
    is undefined or empty, as it is for every track, sound and voice the
    panels create themselves. *)
Theorem items_without_url_are_not_played
    (m : MusicGenerationPanel.Panel)
    (track : MusicGenerationPanel.GeneratedTrack.t)
    (s : SoundEffectsPanel.Panel)
    (sound : SoundEffectsPanel.GeneratedSound.t)
    (v : VoiceControlPanel.Panel)
    (voice : VoiceControlPanel.VoiceProfile.t) (outcome : Promise) :
  truthy_opt (MusicGenerationPanel.GeneratedTrack.audioUrl track) = false ->
  MusicGenerationPanel.isCurrent (state m) track
    && MusicGenerationPanel.isPlaying (state m) = false ->
  truthy_opt (SoundEffectsPanel.GeneratedSound.audioUrl sound) = false ->
  SoundEffectsPanel.playingSoundId (state s)
    <> Some (SoundEffectsPanel.GeneratedSound.id sound) ->
  truthy_opt (VoiceControlPanel.VoiceProfile.previewUrl voice) = false ->
  VoiceControlPanel.playingVoiceId (state v)
    <> Some (VoiceControlPanel.VoiceProfile.id voice) ->
  MusicGenerationPanel.handlePlayTrack (state m) track outcome m = (Normal tt, m) /\
  SoundEffectsPanel.handlePlaySound (state s) sound outcome s = (Normal tt, s) /\
  VoiceControlPanel.handlePlayPreview (state v) voice outcome v = (Normal tt, v).
Proof.
  intros Ht Hc Hs Hp Hv Hq.
  apply strict_eq_false in Hp, Hq.
  unfold MusicGenerationPanel.handlePlayTrack, SoundEffectsPanel.handlePlaySound,
    VoiceControlPanel.handlePlayPreview.
  rewrite Hc, Hp, Hq.
  unfold bind, readRef; simpl.
  destruct (MusicGenerationPanel.GeneratedTrack.audioUrl track) as [u1|];
    destruct (SoundEffectsPanel.GeneratedSound.audioUrl sound) as [u2|];
    destruct (VoiceControlPanel.VoiceProfile.previewUrl voice) as [u3|];
    simpl in Ht, Hs, Hv; rewrite ?Ht, ?Hs, ?Hv;
    destruct (audioRef m), (audioRef s); repeat split; reflexivity.
Qed.

(** X16.  [handlePlayTrack] on a track that has a url, with the element in
    place, when the track is not the one already playing: the track becomes
    the current one and is marked playing, and the element gets one
    [play()].  If it was already the current (paused) track the source and
    the stored time are kept; otherwise [src] is assigned the track's url
    and the stored time goes back to 0. *)
Theorem handlePlayTrack_resumes_or_switches
    (m : MusicGenerationPanel.Panel) (a : Media.HTMLAudioElement)
    (track : MusicGenerationPanel.GeneratedTrack.t) (url : string)
    (outcome : Promise) :
  audioRef m = Some a ->
  MusicGenerationPanel.GeneratedTrack.audioUrl track = Some url ->
  url <> "" ->
  MusicGenerationPanel.isCurrent (state m) track
    && MusicGenerationPanel.isPlaying (state m) = false ->
  let m' :=
    exec (MusicGenerationPanel.handlePlayTrack (state m) track outcome) m in
  MusicGenerationPanel.currentTrack (state m') = Some track /\
  MusicGenerationPanel.isPlaying (state m') = true /\
  MusicGenerationPanel.tracks (state m') = MusicGenerationPanel.tracks (state m) /\
  exists a',
    audioRef m' = Some a' /\
    Media.calls a' = (Media.calls a ++ [Media.Play])%list /\
    if MusicGenerationPanel.isCurrent (state m) track then
      Media.src a' = Media.src a /\
      Media.currentTime a' = Media.currentTime a /\
      MusicGenerationPanel.currentTime (state m')
      = MusicGenerationPanel.currentTime (state m)
    else
      Media.src a' = url /\
      Media.currentTime a' = zero /\
      MusicGenerationPanel.currentTime (state m') = zero.
Proof.
  intros Ha Hurl Hne Hc m'. subst m'.
  destruct m as [ar st con]; simpl in Ha; subst ar.
  assert (Ht : truthy_string url = true).
  { unfold truthy_string. apply negb_true_iff.
    destruct (String.eqb_spec url ""); congruence. }
  unfold exec, MusicGenerationPanel.handlePlayTrack. simpl in *.
  rewrite Hc, Hurl. unfold bind, readRef; simpl. rewrite Ht.
  destruct (MusicGenerationPanel.isCurrent st track); simpl;
    destruct outcome; simpl;
    repeat split; eexists; repeat split; reflexivity.
Qed.

Lemma handlePlayTrack_resumes_or_switches_witness :
  MusicGenerationPanel.isCurrent
    (state (exec MusicGenerationPanel.handleEnded Samples.music))
    Samples.track = true /\
  MusicGenerationPanel.isPlaying
    (state (exec (MusicGenerationPanel.handlePlayTrack
                    (state (exec MusicGenerationPanel.handleEnded Samples.music))
                    Samples.track Fulfilled)
              (exec MusicGenerationPanel.handleEnded Samples.music))) = true.
Proof.
  assert (Hne : "blob:one" <> "") by discriminate.
  split; [reflexivity|].
  exact (proj1 (proj2 (handlePlayTrack_resumes_or_switches
                         (exec MusicGenerationPanel.handleEnded Samples.music)
                         _ Samples.track "blob:one" Fulfilled
                         eq_refl eq_refl Hne eq_refl))).
Defined.

Lemma truthy_string_nonempty (url : string) :
  url <> "" -> truthy_string url = true.
Proof.
  intros Hne. unfold truthy_string. apply negb_true_iff.
  destruct (String.eqb_spec url ""); congruence.
Qed.

Lemma handlePlaySound_starts
    (st rendered : SoundEffectsPanel.State) (con : list (string * string))
    (a : Media.HTMLAudioElement) (sound : SoundEffectsPanel.GeneratedSound.t)
    (url : string) (outcome : Promise) :
  SoundEffectsPanel.GeneratedSound.audioUrl sound = Some url ->
  url <> "" ->
  SoundEffectsPanel.playingSoundId rendered
    <> Some (SoundEffectsPanel.GeneratedSound.id sound) ->
  SoundEffectsPanel.handlePlaySound rendered sound outcome
    {| audioRef := Some a; state := st; console := con |}
  = (Normal tt,
     {| audioRef := Some (exec (Media.play outcome) (exec (Media.set_src url) a));
        state :=
          SoundEffectsPanel.mkState
            (SoundEffectsPanel.prompt st) (SoundEffectsPanel.category st)
            (SoundEffectsPanel.duration st) (SoundEffectsPanel.isGenerating st)
            (SoundEffectsPanel.error st) (SoundEffectsPanel.sounds st)
            (Some (SoundEffectsPanel.GeneratedSound.id sound));
        console := con |}).
Proof.
  intros Hurl Hne Hp. apply strict_eq_false in Hp.
  unfold SoundEffectsPanel.handlePlaySound.
  rewrite Hp, Hurl. unfold bind, readRef; simpl.
  rewrite (truthy_string_nonempty url Hne).
  destruct outcome; reflexivity.
Qed.

(** X17.  [handlePlaySound] is a strict toggle that always starts over.  On
    a sound with a url that is not marked playing it assigns [src] (the
    element goes back to position 0), calls [play()] and marks the sound
    playing; the next click on it calls [pause()] and marks nothing
    playing. *)
Theorem handlePlaySound_plays_then_pauses
    (s : SoundEffectsPanel.Panel) (a : Media.HTMLAudioElement)
    (sound : SoundEffectsPanel.GeneratedSound.t) (url : string)
    (o1 o2 : Promise) :
  audioRef s = Some a ->
  SoundEffectsPanel.GeneratedSound.audioUrl sound = Some url ->
  url <> "" ->
  SoundEffectsPanel.playingSoundId (state s)
    <> Some (SoundEffectsPanel.GeneratedSound.id sound) ->
  let s1 := exec (SoundEffectsPanel.handlePlaySound (state s) sound o1) s in
  let s2 := exec (SoundEffectsPanel.handlePlaySound (state s1) sound o2) s1 in
  exists a1 a2,
    (audioRef s1 = Some a1 /\
     Media.src a1 = url /\
     Media.currentTime a1 = zero /\
     Media.calls a1 = (Media.calls a ++ [Media.Play])%list /\
     SoundEffectsPanel.playingSoundId (state s1)
     = Some (SoundEffectsPanel.GeneratedSound.id sound)) /\
    (audioRef s2 = Some a2 /\
     Media.paused a2 = true /\
     Media.calls a2 = (Media.calls a ++ [Media.Play; Media.Pause])%list /\
     SoundEffectsPanel.playingSoundId (state s2) = None) /\
    SoundEffectsPanel.sounds (state s2) = SoundEffectsPanel.sounds (state s).
Proof.
  intros Ha Hurl Hne Hp s1 s2. subst s1 s2.
  destruct s as [ar st con]; simpl in Ha; subst ar. simpl in Hp.
  unfold exec. cbn [state].
  rewrite (handlePlaySound_starts st st con a sound url o1 Hurl Hne Hp); simpl.
  unfold SoundEffectsPanel.handlePlaySound; simpl.
  rewrite String.eqb_refl; simpl.
  do 2 eexists. split; [|split; [|reflexivity]].
  - split; [reflexivity|]. destruct o1; repeat split; reflexivity.
  - split; [reflexivity|]. simpl.
    destruct o1; simpl; rewrite <- ?app_assoc; repeat split; reflexivity.
Qed.

Lemma handlePlaySound_plays_then_pauses_witness :
  SoundEffectsPanel.playingSoundId
    (state (exec SoundEffectsPanel.onEnded Samples.sounds)) = None /\
  SoundEffectsPanel.playingSoundId
    (state (exec (SoundEffectsPanel.handlePlaySound
                    (state (exec SoundEffectsPanel.onEnded Samples.sounds))
                    Samples.sound Fulfilled)
              (exec SoundEffectsPanel.onEnded Samples.sounds)))
  = Some "sfx-1700000000000".
Proof.
  assert (Hne : "blob:two" <> "") by discriminate.
  assert (Hp : SoundEffectsPanel.playingSoundId
                 (state (exec SoundEffectsPanel.onEnded Samples.sounds))
               <> Some (SoundEffectsPanel.GeneratedSound.id Samples.sound))
    by discriminate.
  split; [reflexivity|].
  destruct (handlePlaySound_plays_then_pauses
              (exec SoundEffectsPanel.onEnded Samples.sounds) _ Samples.sound
              "blob:two" Fulfilled Fulfilled eq_refl eq_refl Hne Hp)
    as [a1 [a2 [[_ [_ [_ [_ H]]]] _]]].
  exact H.
Defined.

Lemma handlePlayPreview_starts
    (st rendered : VoiceControlPanel.State) (con : list (string * string))
    (a : Media.HTMLAudioElement) (voice : VoiceControlPanel.VoiceProfile.t)
    (url : string) (outcome : Promise) :
  VoiceControlPanel.VoiceProfile.previewUrl voice = Some url ->
  url <> "" ->
  VoiceControlPanel.playingVoiceId rendered
    <> Some (VoiceControlPanel.VoiceProfile.id voice) ->
  VoiceControlPanel.handlePlayPreview rendered voice outcome
    {| audioRef := Some a; state := st; console := con |}
  = (Normal tt,
     {| audioRef := Some (exec (Media.play outcome) (exec (Media.set_src url) a));
        state :=
          VoiceControlPanel.mkState
            (VoiceControlPanel.voices st) (VoiceControlPanel.isLoading st)
            (VoiceControlPanel.error st) (VoiceControlPanel.showCloneDialog st)
            (Some (VoiceControlPanel.VoiceProfile.id voice))
            (VoiceControlPanel.cloneName st) (VoiceControlPanel.cloneCharacter st)
            (VoiceControlPanel.isCloning st);
        console := con |}).
Proof.
  intros Hurl Hne Hp. apply strict_eq_false in Hp.
  unfold VoiceControlPanel.handlePlayPreview.
  rewrite Hp, Hurl, (truthy_string_nonempty url Hne).
  unfold bind, readRef; simpl.
  destruct outcome; reflexivity.
Qed.

(** X18.  [handlePlayPreview] toggles a voice preview the same way: on a
    voice with a preview url that is not marked playing it assigns [src],
    calls [play()] and marks the voice; the next click pauses and marks
    nothing.  The list of voices is not touched. *)
Theorem handlePlayPreview_plays_then_pauses
    (v : VoiceControlPanel.Panel) (a : Media.HTMLAudioElement)
    (voice : VoiceControlPanel.VoiceProfile.t) (url : string)
    (o1 o2 : Promise) :
  audioRef v = Some a ->
  VoiceControlPanel.VoiceProfile.previewUrl voice = Some url ->
  url <> "" ->
  VoiceControlPanel.playingVoiceId (state v)
    <> Some (VoiceControlPanel.VoiceProfile.id voice) ->
  let v1 := exec (VoiceControlPanel.handlePlayPreview (state v) voice o1) v in
  let v2 := exec (VoiceControlPanel.handlePlayPreview (state v1) voice o2) v1 in
  exists a1 a2,
    (audioRef v1 = Some a1 /\
     Media.src a1 = url /\
     Media.calls a1 = (Media.calls a ++ [Media.Play])%list /\
     VoiceControlPanel.playingVoiceId (state v1)
     = Some (VoiceControlPanel.VoiceProfile.id voice)) /\
    (audioRef v2 = Some a2 /\
     Media.paused a2 = true /\
     Media.calls a2 = (Media.calls a ++ [Media.Play; Media.Pause])%list /\
     VoiceControlPanel.playingVoiceId (state v2) = None) /\
    VoiceControlPanel.voices (state v2) = VoiceControlPanel.voices (state v).
Proof.
  intros Ha Hurl Hne Hp v1 v2. subst v1 v2.
  destruct v as [ar st con]; simpl in Ha; subst ar. simpl in Hp.
  unfold exec. cbn [state].
  rewrite (handlePlayPreview_starts st st con a voice url o1 Hurl Hne Hp); simpl.
  unfold VoiceControlPanel.handlePlayPreview; simpl.
  rewrite String.eqb_refl; simpl.
  do 2 eexists. split; [|split; [|reflexivity]].
  - split; [reflexivity|]. destruct o1; repeat split; reflexivity.
  - split; [reflexivity|]. simpl.
    destruct o1; simpl; rewrite <- ?app_assoc; repeat split; reflexivity.
Qed.

End PanelPlayback.

Section PanelPlaybackWitnesses.
Import React.

Lemma items_without_url_are_not_played_witness :
  truthy_opt (MusicGenerationPanel.GeneratedTrack.audioUrl Samples.freshTrack)
  = false /\
  MusicGenerationPanel.handlePlayTrack (state Samples.musicTwo)
    Samples.freshTrack Fulfilled Samples.musicTwo
  = (Normal tt, Samples.musicTwo) /\
  SoundEffectsPanel.handlePlaySound (state Samples.sounds)
    Samples.freshSound Fulfilled Samples.sounds
  = (Normal tt, Samples.sounds) /\
  VoiceControlPanel.handlePlayPreview (state Samples.voices)
    Samples.heroVoice Fulfilled Samples.voices
  = (Normal tt, Samples.voices).
Proof.
  assert (Hs : SoundEffectsPanel.playingSoundId (state Samples.sounds)
               <> Some (SoundEffectsPanel.GeneratedSound.id Samples.freshSound))
    by discriminate.
  assert (Hv : VoiceControlPanel.playingVoiceId (state Samples.voices)
               <> Some (VoiceControlPanel.VoiceProfile.id Samples.heroVoice))
    by discriminate.
  split; [reflexivity|].
  exact (items_without_url_are_not_played
           Samples.musicTwo Samples.freshTrack
           Samples.sounds Samples.freshSound
           Samples.voices Samples.heroVoice Fulfilled
           eq_refl eq_refl eq_refl Hs eq_refl Hv).
Defined.

Lemma handlePlayPreview_plays_then_pauses_witness :
  VoiceControlPanel.playingVoiceId (state Samples.voices) = None /\
  VoiceControlPanel.playingVoiceId
    (state (exec (VoiceControlPanel.handlePlayPreview (state Samples.voices)
                    Samples.previewVoice Fulfilled) Samples.voices))
  = Some "voice-3".
Proof.
  assert (Hne : "blob:three" <> "") by discriminate.
  assert (Hp : VoiceControlPanel.playingVoiceId (state Samples.voices)
               <> Some (VoiceControlPanel.VoiceProfile.id Samples.previewVoice))
    by discriminate.
  split; [reflexivity|].
  destruct (handlePlayPreview_plays_then_pauses
              Samples.voices _ Samples.previewVoice "blob:three"
              Fulfilled Fulfilled eq_refl eq_refl Hne Hp)
    as [a1 [a2 [[_ [_ [_ H]]] _]]].
  exact H.
Defined.

End PanelPlaybackWitnesses.

(** ** Deleting *)

Section Deleting.
Import React.




End Deleting.

(** ** The sliders of the music panel *)

Section Sliders.
Import React.

(** X22.  [handleSeek] never stores a time that is not finite: either the
    stored [currentTime] is what it was, or it is a finite number that the
    element holds too. *)
Theorem handleSeek_stores_finite_time_or_nothing
    (m : MusicGenerationPanel.Panel) (value : string) :
  let m' := exec (MusicGenerationPanel.handleSeek value) m in
  MusicGenerationPanel.currentTime (state m')
  = MusicGenerationPanel.currentTime (state m) \/
  (isFinite (MusicGenerationPanel.currentTime (state m')) = true /\
   MusicGenerationPanel.currentTime (state m') = parseFloat value /\
   option_map Media.currentTime (audioRef m') = Some (parseFloat value)).
Proof.
  intros m'. subst m'. destruct m as [[a|] st con];
    unfold exec, MusicGenerationPanel.handleSeek, bind, readRef, onAudio,
      Media.set_currentTime; simpl; [|now left].
  destruct (isFinite (parseFloat value)) eqn:Hf; simpl; [right | now left].
  repeat split; [exact Hf | reflexivity..].
Qed.



End Sliders.
